(** * The authenticated API client of the retinal-detection frontend

  A shallow embedding of [lib/api.ts] (the axios instance, its request and
  response interceptors, the [auth] functions), of [contexts/AuthContext.tsx]
  ([login], [logout]) and of the mocked [analyzeImage] step of
  [components/ImageUpload.tsx], followed by the properties of the token
  lifecycle.

  Browser state is passed explicitly: [localStorage] is a finite map from
  keys to strings, [window.location.href] a string, and every observable
  effect (a request put on the network, a storage write, a navigation, a
  React state update) is appended to a trace.  The server is a deterministic
  function of the requests it has seen so far. *)

From Stdlib Require Import ZArith QArith.
From stdpp Require Import gmap strings list fin_maps.

Local Open Scope Z_scope.
Local Open Scope string_scope.
Local Open Scope list_scope.

(** ** localStorage *)

Module LocalStorage.

Abbreviation Storage := (gmap string string).

(** [localStorage.getItem(k)]: the stored string, or [null]. *)
Definition getItem (s : Storage) (k : string) : option string := s !! k.

(** [localStorage.setItem(k, v)]. *)
Definition setItem (k v : string) (s : Storage) : Storage := <[k := v]> s.

(** [localStorage.removeItem(k)]: removing an absent key is not an error. *)
Definition removeItem (k : string) (s : Storage) : Storage := delete k s.

(** JavaScript truthiness of a [string | null]: [null] and the empty string
    are falsy, every other string is truthy.  This is the test performed by
    [if (token)] and [if (refreshToken)]. *)
Definition truthy (v : option string) : bool :=
  match v with
  | Some s => negb (String.eqb s "")
  | None => false
  end.

End LocalStorage.
Import LocalStorage.

(** ** Requests, responses, errors *)

Inductive Method := GET | POST | PUT | DELETE.

(** The request bodies the client sends. *)
Inductive Body :=
  | NoBody
  | RefreshBody (refresh : string)               (* { refresh: refreshToken } *)
  | Credentials (username password : string)     (* { username, password } *)
  | JsonBody (json : string)                     (* any other JSON payload *)
  | FormData (parts : list (string * string)).   (* multipart form *)

(** An axios request config.  [_retry] is the flag the response interceptor
  writes on the request object; it is absent (falsy) on a fresh request. *)
Record Config := mkConfig {
  url : string;
  method : Method;
  baseURL : option string;
  timeout : option Z;
  params : option string;
  headers : gmap string string;
  data : Body;
  _retry : bool
}.

Definition set_header (k v : string) (c : Config) : Config :=
  mkConfig (url c) (method c) (baseURL c) (timeout c) (params c)
         (<[k := v]> (headers c)) (data c) (_retry c).

Definition set_retry (b : bool) (c : Config) : Config :=
  mkConfig (url c) (method c) (baseURL c) (timeout c) (params c)
         (headers c) (data c) b.

(** [interface User] of AuthContext.tsx. *)
Record User := mkUser {
  id : Z;
  username : string;
  email : string;
  first_name : string;
  last_name : string;
  role : string;
  medical_license : string;
  hospital_name : string;
  department : string;
  phone_number : string
}.

(** The fields of [response.data] that the client reads: [access] (login and
  refresh endpoints), [refresh] and [user] (login endpoint); [payload]
  stands for the rest of the body, which the client only hands back to its
  caller. *)
Record ResponseData := mkData {
  access : string;
  refresh : string;
  user : User;
  payload : string
}.

Record Response := mkResponse {
  status : Z;
  rdata : ResponseData           (* response.data *)
}.

(** An axios error: [error.config] is the request that failed and
  [error.response] is absent when no response was received.  (The client
  never reads [response.config], which is the same object as
  [error.config].) *)
Record AxiosError := mkError {
  config : Config;
  response : option Response
}.

(** The state in which a promise settles: fulfilled with a value, or
  rejected with an error. *)
Inductive Promise (A : Type) :=
  | Fulfilled (a : A)
  | Rejected (e : AxiosError).
Arguments Fulfilled {A} a.
Arguments Rejected {A} e.

Abbreviation Settled := (Promise Response).

(** [const response = await p; return response.data;] *)
Definition then_data (p : Settled) : Promise ResponseData :=
  match p with
  | Fulfilled response => Fulfilled (rdata response)
  | Rejected e => Rejected e
  end.

(** ** The browser and the network *)

Inductive Effect :=
  | Send (c : Config)                   (* a request put on the network *)
  | SetItem (k v : string)
  | RemoveItem (k : string)
  | Navigate (href : string)            (* window.location.href = ... *)
  | SetUser (u : option User).          (* React state update of AuthProvider *)

Record World := mkWorld {
  storage : gmap string string;
  href : string;
  trace : list Effect
}.

Definition emit (e : Effect) (w : World) : World :=
  mkWorld (storage w) (href w) (trace w ++ [e]).

Definition ls_setItem (k v : string) (w : World) : World :=
  emit (SetItem k v) (mkWorld (setItem k v (storage w)) (href w) (trace w)).

Definition ls_removeItem (k : string) (w : World) : World :=
  emit (RemoveItem k) (mkWorld (removeItem k (storage w)) (href w) (trace w)).

Definition navigate (target : string) (w : World) : World :=
  emit (Navigate target) (mkWorld (storage w) target (trace w)).

(** The requests sent so far, oldest first. *)
Fixpoint sent (t : list Effect) : list Config :=
  match t with
  | [] => []
  | Send c :: t' => c :: sent t'
  | _ :: t' => sent t'
  end.

(** What comes back for a request: an HTTP response, or nothing at all
  (connection failure, timeout). *)
Inductive Reply :=
  | Http (st : Z) (d : ResponseData)
  | NoReply.

(** The server: its reply to a request may depend on every request it has
  received before. *)
Definition Network := list Config -> Config -> Reply.

(** axios settles a request: a status in [200, 300) fulfils the promise,
  any other status and a missing response reject it. *)
Definition settle (c : Config) (r : Reply) : Settled :=
  match r with
  | Http st d =>
    if ((200 <=? st) && (st <? 300))%Z
    then Fulfilled (mkResponse st d)
    else Rejected (mkError c (Some (mkResponse st d)))
  | NoReply => Rejected (mkError c None)
  end.

(** [String(v)] of a [string | undefined], as a template literal does it. *)
Definition js_String (v : option string) : string :=
  match v with
  | Some s => s
  | None => "undefined"
  end.

Section Client.

(** [process.env.NEXT_PUBLIC_API_BASE_URL] *)
Variable NEXT_PUBLIC_API_BASE_URL : option string.

(** The server the client talks to. *)
Variable net : Network.

(** Put one request on the network and wait for it to settle. *)
Definition transport (w : World) (c : Config) : World * Settled :=
  (emit (Send c) w, settle c (net (sent (trace w)) c)).

(** [axios.create({ baseURL: ... || "http://localhost:8000/api/v1",
    timeout: 30000 })]: the instance defaults, merged under each request. *)
Definition api_baseURL : string :=
  if truthy NEXT_PUBLIC_API_BASE_URL
  then js_String NEXT_PUBLIC_API_BASE_URL
  else "http://localhost:8000/api/v1".

Definition mergeConfig (c : Config) : Config :=
  mkConfig (url c) (method c)
           (match baseURL c with Some b => Some b | None => Some api_baseURL end)
           (match timeout c with Some t => Some t | None => Some 30000 end)
           (params c) (headers c) (data c) (_retry c).

(** *** Request interceptor

    [const token = localStorage.getItem("access_token");
     if (token) config.headers.Authorization = `Bearer ${token}`;
     return config;] *)
Definition request_interceptor (ls : gmap string string) (config : Config) : Config :=
  let token := getItem ls "access_token" in
  if truthy token
  then set_header "Authorization" ("Bearer " +:+ js_String token) config
  else config.

(** *** Response interceptor, rejected branch

    The handler is an async function with one [await]; it is embedded as
    the two pieces of code that run without interruption, before and after
    that [await]. *)

(** [error.response?.status === 401] *)
Definition status_is_401 (error : AxiosError) : bool :=
  match response error with
  | Some r => (status r =? 401)%Z
  | None => false
  end.

(** The request of the refresh exchange:
    [axios.post(`${process.env.NEXT_PUBLIC_API_BASE_URL}/auth/refresh/`,
                { refresh: refreshToken })],
    made with the global axios, which has no interceptors and no
    instance defaults. *)
Definition refresh_request (refreshToken : string) : Config :=
  mkConfig (js_String NEXT_PUBLIC_API_BASE_URL +:+ "/auth/refresh/")
           POST None None None ∅ (RefreshBody refreshToken) false.

(** Where the handler stands when it first gives up control. *)
Inductive Suspended :=
| Returned (r : Settled)
    (* the handler ran to its end without awaiting *)
| AwaitingRefresh (refreshReq : Config) (originalRequest : Config).
    (* suspended at [await axios.post(...)] *)

(** From the entry of the handler to its [await], or to its end.
    [originalRequest] aliases [error.config], so the assignment
    [originalRequest._retry = true] is visible in the error that the
    handler rejects with when it finds no refresh token. *)
Definition on_rejected (ls : gmap string string) (error : AxiosError) : Suspended :=
  let originalRequest := config error in
  if status_is_401 error && negb (_retry originalRequest) then
    let originalRequest := set_retry true originalRequest in
    let error := mkError originalRequest (response error) in
    let refreshToken := getItem ls "refresh_token" in
    if truthy refreshToken
    then AwaitingRefresh (refresh_request (js_String refreshToken)) originalRequest
    else Returned (Rejected error)
  else Returned (Rejected error).

(** What the handler does once the refresh exchange has settled. *)
Inductive Resumed :=
| Reissue (originalRequest : Config)      (* [return api(originalRequest)] *)
| Finished (r : Settled).

(** From the [await] to the end of the handler: on success store the new
    access token and reissue the request with it; on failure (the [catch]
    block) drop the session, go to the login page and reject with the
    refresh error. *)
Definition on_refresh_settled (w : World) (originalRequest : Config)
           (refreshed : Settled) : World * Resumed :=
  match refreshed with
  | Fulfilled response =>
      let access := access (rdata response) in
      let w := ls_setItem "access_token" access w in
      (w, Reissue (set_header "Authorization" ("Bearer " +:+ access) originalRequest))
  | Rejected refreshError =>
      let w := ls_removeItem "access_token" w in
      let w := ls_removeItem "refresh_token" w in
      let w := ls_removeItem "user" w in
      let w := navigate "/login" w in
      (w, Finished (Rejected refreshError))
  end.

(** The whole handler when nothing else runs in between: [self] is the
    axios instance, called for the retry. *)
Definition response_interceptor_rejected
           (self : World -> Config -> World * option Settled)
           (w : World) (error : AxiosError) : World * option Settled :=
  match on_rejected (storage w) error with
  | Returned r => (w, Some r)
  | AwaitingRefresh refreshReq originalRequest =>
      let '(w, refreshed) := transport w refreshReq in
      match on_refresh_settled w originalRequest refreshed with
      | (w, Reissue originalRequest) => self w originalRequest
      | (w, Finished r) => (w, Some r)
      end
  end.

(** *** The axios instance

    [api(config)]: merge the instance defaults, run the request
    interceptor, send, and run the response interceptor on the outcome
    (its fulfilled branch is the identity).  The retry calls [api] again;
    [api_n] bounds the nesting of these calls and answers [None] when the
    bound is reached. *)
Fixpoint api_n (depth : nat) (w : World) (c : Config) : World * option Settled :=
  match depth with
  | O => (w, None)
  | S depth =>
      let c := request_interceptor (storage w) (mergeConfig c) in
      let '(w, r) := transport w c in
      match r with
      | Fulfilled response => (w, Some (Fulfilled response))
      | Rejected error => response_interceptor_rejected (api_n depth) w error
      end
  end.

(** A request is retried at most once, so two levels are all [api] needs
    (see [api_n_enough]). *)
Definition api (w : World) (c : Config) : World * option Settled := api_n 2 w c.


(** *** Auth API functions *)

(** [api.get(url, { params })], [api.post(url, data)] and so on build the
    request config that is handed to the instance. *)
Definition request (m : Method) (u : string) (p : option string)
           (h : gmap string string) (d : Body) : Config :=
  mkConfig u m None None p h d false.

(** [auth.login]: [api.post("/auth/login/", credentials)], then
    [response.data]. *)
Definition auth_login (w : World) (username password : string)
  : World * option (Promise ResponseData) :=
  let '(w, r) := api w (request POST "/auth/login/" None ∅ (Credentials username password)) in
  (w, then_data <$> r).

(** [auth.logout]: the three session keys are removed. *)
Definition auth_logout (w : World) : World :=
  let w := ls_removeItem "access_token" w in
  let w := ls_removeItem "refresh_token" w in
  let w := ls_removeItem "user" w in
  w.

(** [auth.getProfile] *)
Definition auth_getProfile (w : World) : World * option (Promise ResponseData) :=
  let '(w, r) := api w (request GET "/auth/profile/" None ∅ NoBody) in
  (w, then_data <$> r).

(** *** The login and logout of AuthProvider *)

(** [JSON.stringify] on a user profile. *)
Variable JSON_stringify : User -> string.

(** The React state of the provider: [const [user, setUser] = useState(null)]. *)
Record AuthState := mkAuthState {
  user_state : option User;
  loading : bool
}.

Definition setUser (u : option User) (st : AuthState) : AuthState :=
  mkAuthState u (loading st).

(** [login]: on success the three session keys are stored and then the user
    state is set; a failure of [auth.login] is caught and thrown again. *)
Definition login (w : World) (st : AuthState) (username password : string)
  : World * AuthState * option (Promise unit) :=
  match auth_login w username password with
  | (w, None) => (w, st, None)
  | (w, Some (Fulfilled response)) =>
      let w := ls_setItem "access_token" (access response) w in
      let w := ls_setItem "refresh_token" (refresh response) w in
      let w := ls_setItem "user" (JSON_stringify (user response)) w in
      let w := emit (SetUser (Some (user response))) w in
      (w, setUser (Some (user response)) st, Some (Fulfilled tt))
  | (w, Some (Rejected error)) => (w, st, Some (Rejected error))
  end.

(** [logout]: [auth.logout(); setUser(null);] *)
Definition logout (w : World) (st : AuthState) : World * AuthState :=
  let w := auth_logout w in
  let w := emit (SetUser None) w in
  (w, setUser None st).

(** *** Several requests in flight

    The browser runs one piece of code at a time.  With several requests in
    flight the handlers of the response interceptor are interleaved at their
    [await]: a handler starts when its request fails, and resumes when its
    own refresh exchange settles.  The order of these events is chosen by
    the network, so it is given as a schedule. *)

Record Loop := mkLoop {
  world : World;
  awaiting : gmap nat Config;   (* suspended handlers and their originalRequest *)
  tickets : nat                 (* handlers suspended so far *)
}.

Inductive Event :=
| Failed (error : AxiosError)
    (* a request of the instance was rejected *)
| RefreshSettled (ticket : nat) (r : Settled).
    (* the refresh exchange of a suspended handler settled *)

Definition step (l : Loop) (ev : Event) : Loop :=
  match ev with
  | Failed error =>
      match on_rejected (storage (world l)) error with
      | Returned _ => l
      | AwaitingRefresh refreshReq originalRequest =>
          mkLoop (emit (Send refreshReq) (world l))
                 (<[tickets l := originalRequest]> (awaiting l))
                 (S (tickets l))
      end
  | RefreshSettled ticket r =>
      match awaiting l !! ticket with
      | None => l
      | Some originalRequest =>
          match on_refresh_settled (world l) originalRequest r with
          | (w, Reissue c) =>
              let c := request_interceptor (storage w) (mergeConfig c) in
              mkLoop (emit (Send c) w) (delete ticket (awaiting l)) (tickets l)
          | (w, Finished _) =>
              mkLoop w (delete ticket (awaiting l)) (tickets l)
          end
      end
  end.

Definition run (l : Loop) (schedule : list Event) : Loop :=
  fold_left step schedule l.

End Client.

(** A handler starts on this event: a 401 on a request not yet retried. *)
Definition starts_refresh (ev : Event) : bool :=
  match ev with
  | Failed error => status_is_401 error && negb (_retry (config error))
  | RefreshSettled _ _ => false
  end.

(** How many handlers a schedule starts. *)
Definition unauthorized_count (schedule : list Event) : nat :=
  length (List.filter starts_refresh schedule).

Definition refresh_fulfilled (ev : Event) : bool :=
  match ev with
  | Failed _ => true
  | RefreshSettled _ (Fulfilled _) => true
  | RefreshSettled _ (Rejected _) => false
  end.

Definition is_failed (ev : Event) : bool :=
  match ev with
  | Failed _ => true
  | RefreshSettled _ _ => false
  end.

#[global] Instance Method_eq_dec : EqDecision Method.
Proof. solve_decision. Defined.
#[global] Instance Body_eq_dec : EqDecision Body.
Proof. solve_decision. Defined.
#[global] Instance Config_eq_dec : EqDecision Config.
Proof. solve_decision. Defined.

(** How many times request [c] was put on the network. *)
Definition times_sent (c : Config) (t : list Effect) : nat :=
  length (filter (fun c' => c' = c) (sent t)).

(** ** Domain clients

    Every call the module exports, and the request config it hands to the
    instance. *)
Inductive Call :=
| AuthLogin (username password : string)
| AuthGetProfile
| PatientsList (params : option string)
| PatientsCreate (patientData : string)
| PatientsGet (id : string)
| PatientsUpdate (id patientData : string)
| PatientsDelete (id : string)
| RetinalImagesList (params : option string)
| RetinalImagesCreate (imageData : list (string * string))
| RetinalImagesGet (id : string)
| AnalysisAnalyzeImage (imageData : list (string * string))
| AnalysisGetDashboardStats
| PredictionsList (params : option string)
| PredictionsGet (id : string)
| PredictionsConfirm (id : string)
| DiseasesList
| MedicalHistoryList (params : option string)
| MedicalHistoryCreate (historyData : string)
| MedicalHistoryGet (id : string)
| MedicalHistoryUpdate (id historyData : string).

Definition multipart : gmap string string :=
  {[ "Content-Type" := "multipart/form-data" ]}.

Definition call_config (c : Call) : Config :=
  match c with
  | AuthLogin u p => request POST "/auth/login/" None ∅ (Credentials u p)
  | AuthGetProfile => request GET "/auth/profile/" None ∅ NoBody
  | PatientsList p => request GET "/patients/" p ∅ NoBody
  | PatientsCreate d => request POST "/patients/" None ∅ (JsonBody d)
  | PatientsGet i => request GET ("/patients/" +:+ i +:+ "/") None ∅ NoBody
  | PatientsUpdate i d => request PUT ("/patients/" +:+ i +:+ "/") None ∅ (JsonBody d)
  | PatientsDelete i => request DELETE ("/patients/" +:+ i +:+ "/") None ∅ NoBody
  | RetinalImagesList p => request GET "/retinal-images/" p ∅ NoBody
  | RetinalImagesCreate f => request POST "/retinal-images/" None multipart (FormData f)
  | RetinalImagesGet i => request GET ("/retinal-images/" +:+ i +:+ "/") None ∅ NoBody
  | AnalysisAnalyzeImage f => request POST "/analyze/" None multipart (FormData f)
  | AnalysisGetDashboardStats => request GET "/dashboard/stats/" None ∅ NoBody
  | PredictionsList p => request GET "/predictions/" p ∅ NoBody
  | PredictionsGet i => request GET ("/predictions/" +:+ i +:+ "/") None ∅ NoBody
  | PredictionsConfirm i => request POST ("/predictions/" +:+ i +:+ "/confirm/") None ∅ NoBody
  | DiseasesList => request GET "/diseases/" None ∅ NoBody
  | MedicalHistoryList p => request GET "/medical-history/" p ∅ NoBody
  | MedicalHistoryCreate d => request POST "/medical-history/" None ∅ (JsonBody d)
  | MedicalHistoryGet i => request GET ("/medical-history/" +:+ i +:+ "/") None ∅ NoBody
  | MedicalHistoryUpdate i d => request PUT ("/medical-history/" +:+ i +:+ "/") None ∅ (JsonBody d)
  end.

(** The session as the token store holds it: empty when none of the three
    keys is present. *)
Definition session_empty (ls : gmap string string) : Prop :=
  getItem ls "access_token" = None /\
  getItem ls "refresh_token" = None /\
  getItem ls "user" = None.

(** ** The mocked analysis step of ImageUpload.tsx *)

Module ImageUpload.

Record File := mkFile {
  name : string;
  type : string;
  size : Z;
  content : list Byte.byte
}.

(** The object literal [mockResult]. *)
Record Diagnosis := mkDiagnosis {
  prediction : string;
  confidence : Q;
  severity : string;
  recommendations : list string;
  detectedFeatures : list string;
  riskFactors : list string;
  filename : string;
  analysisDate : string
}.

(** What [analyzeImage] does to the component and its surroundings. *)
Inductive UiEffect :=
| SetIsAnalyzing (b : bool)
| FormDataAppend (field : string) (f : File)
| SetTimeout (ms : Z)                      (* the awaited timer *)
| OnAnalysisComplete (result : Diagnosis)
| SetUploadError (msg : string).

Section Analyze.

(** [Date.prototype.toISOString], on a clock reading in milliseconds. *)
Variable toISOString : Z -> string.

(** Whether the [onAnalysisComplete] callback of the parent throws. *)
Variable callback_throws : Diagnosis -> bool.

Definition mockResult (uploadedFile : File) (now : Z) : Diagnosis :=
  {| prediction := "Diabetic Retinopathy Detected";
     confidence := 87 # 100;
     severity := "Moderate";
     recommendations :=
       [ "Consult with ophthalmologist within 2 weeks";
         "Monitor blood sugar levels closely";
         "Schedule follow-up examination in 3 months" ];
     detectedFeatures :=
       [ "Microaneurysms present";
         "Hard exudates detected";
         "Cotton wool spots identified" ];
     riskFactors := [ "Diabetes"; "Hypertension" ];
     filename := name uploadedFile;
     analysisDate := toISOString now |}.

(** [analyzeImage]; [now] is what the clock shows when the timer has fired. *)
Definition analyzeImage (uploadedFile : option File) (now : Z) : list UiEffect :=
  match uploadedFile with
  | None => []
  | Some file =>
      let result := mockResult file now in
      [ SetIsAnalyzing true; FormDataAppend "image" file; SetTimeout 3000;
        OnAnalysisComplete result ]
      ++ (if callback_throws result
          then [ SetUploadError "Analysis failed. Please try again." ]
          else [])
      ++ [ SetIsAnalyzing false ]
  end.

End Analyze.

(** The timers awaited and the results delivered in a run. *)
Definition delays (t : list UiEffect) : list Z :=
  omap (fun e => match e with SetTimeout ms => Some ms | _ => None end) t.

Definition delivered (t : list UiEffect) : list Diagnosis :=
  omap (fun e => match e with OnAnalysisComplete r => Some r | _ => None end) t.


(** *** The state of the component and its other handlers *)

Record UploadState := mkUploadState {
  uploadedFile : option File;
  previewUrl : option string;
  isAnalyzing : bool;
  uploadError : option string
}.

(** The four [useState] initial values. *)
Definition initial : UploadState := mkUploadState None None false None.

(** What the handlers do to the object URLs of the browser. *)
Inductive UrlEffect :=
| CreateObjectURL (f : File) (url : string)
| RevokeObjectURL (url : string).

(** [onDrop(acceptedFiles)]: only [acceptedFiles[0]] is looked at; it must
    be of an image type and of at most 10 MB.  [url] is what
    [URL.createObjectURL] answers when it is called. *)
Definition onDrop (st : UploadState) (acceptedFiles : list File) (url : string)
  : UploadState * list UrlEffect :=
  match acceptedFiles with
  | [] => (st, [])
  | file :: _ =>
      if negb (String.prefix "image/" (type file)) then
        (mkUploadState (uploadedFile st) (previewUrl st) (isAnalyzing st)
                       (Some "Please upload a valid image file"), [])
      else if (size file >? 10 * 1024 * 1024)%Z then
        (mkUploadState (uploadedFile st) (previewUrl st) (isAnalyzing st)
                       (Some "File size must be less than 10MB"), [])
      else
        (mkUploadState (Some file) (Some url) (isAnalyzing st) None,
         [CreateObjectURL file url])
  end.

(** [removeFile]: the preview URL is revoked and forgotten when there is
    one ([if (previewUrl)]). *)
Definition removeFile (st : UploadState) : UploadState * list UrlEffect :=
  if truthy (previewUrl st)
  then (mkUploadState None None (isAnalyzing st) None,
        [RevokeObjectURL (js_String (previewUrl st))])
  else (mkUploadState None (previewUrl st) (isAnalyzing st) None, []).

(** The state updates among the effects of [analyzeImage]. *)
Definition apply_effect (st : UploadState) (e : UiEffect) : UploadState :=
  match e with
  | SetIsAnalyzing b =>
      mkUploadState (uploadedFile st) (previewUrl st) b (uploadError st)
  | SetUploadError msg =>
      mkUploadState (uploadedFile st) (previewUrl st) (isAnalyzing st) (Some msg)
  | _ => st
  end.

(** [analyzeImage] run on the state of the component. *)
Definition analyze (toISOString : Z -> string) (callback_throws : Diagnosis -> bool)
           (st : UploadState) (now : Z) : UploadState :=
  fold_left apply_effect
            (analyzeImage toISOString callback_throws (uploadedFile st) now) st.

(** [analyzeImage] gives up control once, at [await new Promise(...)]: what
    it does up to and including the start of the timer, and what it does
    once the timer has fired. *)
Fixpoint until_timer (t : list UiEffect) : list UiEffect :=
  match t with
  | [] => []
  | SetTimeout ms :: _ => [SetTimeout ms]
  | e :: t => e :: until_timer t
  end.

Fixpoint after_timer (t : list UiEffect) : list UiEffect :=
  match t with
  | [] => []
  | SetTimeout _ :: t => t
  | _ :: t => after_timer t
  end.

(** The component together with the analysis that is suspended at its
    [await], if there is one: the file it was started on and what the clock
    will show when its timer fires. *)
Record Desk := mkDesk {
  ui : UploadState;
  awaited : option (File * Z)
}.

(** What can happen to the component.  The drop zone is rendered while no
    file is uploaded ([!uploadedFile ? ... : ...]); the preview with its
    Remove buttons and its Analyze button is rendered otherwise, the Analyze
    button being disabled while [isAnalyzing].  The Remove buttons stay
    enabled during an analysis, and once the file is removed the drop zone
    is back: both can happen before the timer fires. *)
Inductive Action :=
| Drop (acceptedFiles : list File) (url : string)
| Remove
| Analyze (fires : Z)
| TimerFires.

Definition act (toISOString : Z -> string) (callback_throws : Diagnosis -> bool)
           (d : Desk) (a : Action) : Desk * list UrlEffect :=
  match a with
  | Drop acceptedFiles url =>
      match uploadedFile (ui d) with
      | None =>
          let '(st, effects) := onDrop (ui d) acceptedFiles url in
          (mkDesk st (awaited d), effects)
      | Some _ => (d, [])
      end
  | Remove =>
      match uploadedFile (ui d) with
      | Some _ =>
          let '(st, effects) := removeFile (ui d) in
          (mkDesk st (awaited d), effects)
      | None => (d, [])
      end
  | Analyze fires =>
      match uploadedFile (ui d), isAnalyzing (ui d) with
      | Some file, false =>
          let effects :=
            analyzeImage toISOString callback_throws (Some file) fires in
          (mkDesk (fold_left apply_effect (until_timer effects) (ui d))
                  (Some (file, fires)), [])
      | _, _ => (d, [])
      end
  | TimerFires =>
      match awaited d with
      | Some (file, fires) =>
          let effects :=
            analyzeImage toISOString callback_throws (Some file) fires in
          (mkDesk (fold_left apply_effect (after_timer effects) (ui d)) None, [])
      | None => (d, [])
      end
  end.

Fixpoint interact (toISOString : Z -> string) (callback_throws : Diagnosis -> bool)
         (d : Desk) (actions : list Action) : Desk * list UrlEffect :=
  match actions with
  | [] => (d, [])
  | a :: actions =>
      let '(d, effects) := act toISOString callback_throws d a in
      let '(d, later) := interact toISOString callback_throws d actions in
      (d, effects ++ later)
  end.

(** The object URLs created and not revoked. *)
Definition live_step (urls : list string) (e : UrlEffect) : list string :=
  match e with
  | CreateObjectURL _ url => urls ++ [url]
  | RevokeObjectURL url => List.filter (fun u => negb (String.eqb u url)) urls
  end.

Definition live (effects : list UrlEffect) : list string :=
  fold_left live_step effects [].

(** The URLs that a sequence of actions has the browser hand out. *)
Definition nonempty_url (a : Action) : bool :=
  match a with
  | Drop _ url => negb (String.eqb url "")
  | _ => true
  end.

(** [file.type.startsWith("image/")] and [file.size <= 10 MB]. *)
Definition acceptable (file : File) : bool :=
  String.prefix "image/" (type file) && (size file <=? 10485760)%Z.

(** [isAnalyzing] tells whether an analysis is awaited, the file and the
    preview go together, the file has passed the checks, and the preview is
    the one live object URL. *)
Definition settled (d : Desk) (urls : list string) : Prop :=
  (isAnalyzing (ui d) = true <-> is_Some (awaited d)) /\
  ((uploadedFile (ui d) = None /\ previewUrl (ui d) = None /\ urls = []) \/
   (exists file url,
       uploadedFile (ui d) = Some file /\ previewUrl (ui d) = Some url /\
       url <> "" /\ urls = [url] /\ acceptable file = true)).

End ImageUpload.

(** ** The page (app/page.tsx) *)

Module Home.

Record State := mkState {
  currentView : string;
  analysisResult : option ImageUpload.Diagnosis
}.

(** [useState("home")], [useState(null)] *)
Definition initial : State := mkState "home" None.

(** What the Results component shows: [if (!result)] a placeholder. *)
Inductive ResultsView :=
| NoResultsAvailable
| Report (result : ImageUpload.Diagnosis).

Definition Results (result : option ImageUpload.Diagnosis) : ResultsView :=
  match result with
  | None => NoResultsAvailable
  | Some r => Report r
  end.

Inductive Rendered :=
| DashboardView
| ImageUploadView
| RenderedResults (v : ResultsView)
| HeroView.

(** [renderCurrentView]: the [switch] on [currentView]. *)
Definition renderCurrentView (st : State) : Rendered :=
  if String.eqb (currentView st) "dashboard" then DashboardView
  else if String.eqb (currentView st) "upload" then ImageUploadView
  else if String.eqb (currentView st) "results"
       then RenderedResults (Results (analysisResult st))
  else HeroView.

Definition setCurrentView (view : string) (st : State) : State :=
  mkState view (analysisResult st).

(** The callback handed to ImageUpload:
    [setAnalysisResult(result); setCurrentView("results");] *)
Definition onAnalysisComplete (result : ImageUpload.Diagnosis) (st : State) : State :=
  mkState "results" (Some result).

(** What happens to the page: the user navigates (Navigation and Hero call
    [setCurrentView]), or an analysis that was started completes. *)
Inductive Action :=
| Navigate (view : string)
| Complete (result : ImageUpload.Diagnosis).

Definition act (st : State) (a : Action) : State :=
  match a with
  | Navigate view => setCurrentView view st
  | Complete result => onAnalysisComplete result st
  end.

Definition run (st : State) (actions : list Action) : State :=
  fold_left act actions st.

(** The result of the analysis that completed last, if any did. *)
Fixpoint last_completed (actions : list Action) (earlier : option ImageUpload.Diagnosis)
  : option ImageUpload.Diagnosis :=
  match actions with
  | [] => earlier
  | Navigate _ :: actions => last_completed actions earlier
  | Complete r :: actions => last_completed actions (Some r)
  end.

End Home.

(** ** The mount effect of AuthProvider *)

Section Provider.

(** [JSON.parse] on the stored user: [None] when it throws, otherwise the
    value, which is [null] or a user. *)
Variable JSON_parse : string -> option (option User).

(** [useState<User | null>(null)], [useState(true)] *)
Definition initial_auth : AuthState := mkAuthState None true.

Definition setLoading (b : bool) (st : AuthState) : AuthState :=
  mkAuthState (user_state st) b.

(** The effect run on mount: with an access token and a user stored, the
    user is parsed and set; a user that does not parse removes the session.
    Loading ends in every case. *)
Definition on_mount (w : World) (st : AuthState) : World * AuthState :=
  let token := getItem (storage w) "access_token" in
  let userData := getItem (storage w) "user" in
  let '(w, st) :=
    if truthy token && truthy userData then
      match JSON_parse (js_String userData) with
      | Some parsed => (emit (SetUser parsed) w, setUser parsed st)
      | None =>
          let w := ls_removeItem "access_token" w in
          let w := ls_removeItem "refresh_token" w in
          let w := ls_removeItem "user" w in
          (w, st)
      end
    else (w, st) in
  (w, setLoading false st).

End Provider.

(** [isAuthenticated: !!user] *)
Definition isAuthenticated (st : AuthState) : bool :=
  match user_state st with
  | Some _ => true
  | None => false
  end.

(** A call of a domain client: [const response = await api...;
    return response.data;] *)
Definition invoke (env : option string) (net : Network) (w : World) (c : Call)
  : World * option (Promise ResponseData) :=
  let '(w, r) := api env net w (call_config c) in
  (w, then_data <$> r).


(** ** Concrete browsers and servers *)

Module Scenario.

(** A server that answers the n-th request it receives with the n-th reply
    of a script. *)
Definition scripted (script : list Reply) : Network :=
  fun history _ => nth (length history) script NoReply.

Definition env : option string := Some "http://localhost:8000/api/v1".

Definition doctor : User :=
  mkUser 1 "testdoctor" "doc@example.org" "Test" "Doctor" "doctor"
         "ML-1" "General" "Ophthalmology" "555-0100".

Definition body (a r : string) : ResponseData := mkData a r doctor "".

Definition stringify (u : User) : string := "{" +:+ username u +:+ "}".

(** A stored session. *)
Definition session : gmap string string :=
  {[ "access_token" := "old"; "refresh_token" := "r1"; "user" := "{testdoctor}" ]}.

(** An access token and a user, but no refresh token. *)
Definition no_refresh : gmap string string :=
  {[ "access_token" := "old"; "user" := "{testdoctor}" ]}.

Definition browser (ls : gmap string string) : World := mkWorld ls "/" [].

Definition get_patients : Config := call_config (PatientsList None).

(** 401, then a successful refresh, then 200 on the retry. *)
Definition expired_once : Network :=
  scripted [ Http 401 (body "" ""); Http 200 (body "new" ""); Http 200 (body "" "") ].

(** 401, then the refresh is refused. *)
Definition refresh_refused : Network :=
  scripted [ Http 401 (body "" ""); Http 401 (body "" "") ].

(** 401 whatever is asked. *)
Definition always_401 : Network := fun _ _ => Http 401 (body "" "").

(** 500 whatever is asked. *)
Definition always_500 : Network := fun _ _ => Http 500 (body "" "").

(** Wrong credentials while a session is stored: 401 on the login, a
    successful refresh, 401 again on the retried login. *)
Definition wrong_password : Network :=
  scripted [ Http 401 (body "" ""); Http 200 (body "new" ""); Http 401 (body "" "") ].

(** The login endpoint accepts the credentials. *)
Definition accepts : Network := fun _ _ => Http 200 (body "a1" "r1").

(** The error of a request answered 500. *)
Definition server_error : AxiosError :=
  mkError get_patients (Some (mkResponse 500 (body "" ""))).

Definition signed_out : AuthState := mkAuthState None false.

Definition file1 : ImageUpload.File :=
  ImageUpload.mkFile "left-eye.png" "image/png" 3 [Byte.x01; Byte.x02; Byte.x03].

Definition file2 : ImageUpload.File :=
  ImageUpload.mkFile "left-eye.png" "image/png" 2 [Byte.xff; Byte.xfe].

Definition iso (now : Z) : string :=
  if (now =? 0)%Z then "1970-01-01T00:00:00.000Z" else "2024-01-01T00:00:00.000Z".

(** Two requests failing with 401 while a session is stored. *)
Definition err (u : string) : AxiosError :=
  let c := request GET u None ∅ NoBody in
  mkError c (Some (mkResponse 401 (body "" ""))).

Definition refreshed (a : string) : Settled :=
  Fulfilled (mkResponse 200 (body a "")).

Definition two_at_once : list Event :=
  [ Failed (err "/patients/"); Failed (err "/diseases/");
    RefreshSettled 1 (refreshed "second"); RefreshSettled 0 (refreshed "first") ].

(** The same two failures, and then one refresh is fulfilled and the other
    refused. *)
Definition both_fail : list Event :=
  [ Failed (err "/patients/"); Failed (err "/diseases/") ].

Definition one_refused : list Event :=
  [ RefreshSettled 0 (refreshed "first");
    RefreshSettled 1
      (Rejected (mkError (refresh_request env "r1")
                         (Some (mkResponse 401 (body "" ""))))) ].

Definition idle (ls : gmap string string) : Loop := mkLoop (browser ls) ∅ 0.


(** What [JSON.parse] makes of the stored users of these scenarios. *)
Definition parse (text : string) : option (option User) :=
  if String.eqb text "{testdoctor}" then Some (Some doctor)
  else if String.eqb text "null" then Some None
  else None.

(** A session whose stored user is not JSON. *)
Definition corrupt : gmap string string :=
  {[ "access_token" := "old"; "refresh_token" := "r1"; "user" := "{testdoc" ]}.

(** No access token, the rest of a session. *)
Definition no_access : gmap string string :=
  {[ "refresh_token" := "r1"; "user" := "{testdoctor}" ]}.

(** 401, a successful refresh, 401 again on the retry. *)
Definition still_unauthorized : Network := wrong_password.

(** No answer at all. *)
Definition unreachable : Network := fun _ _ => NoReply.

(** A file of exactly 10 MB, and one byte more. *)
Definition at_limit : ImageUpload.File :=
  ImageUpload.mkFile "fundus.png" "image/png" 10485760 [].

Definition over_limit : ImageUpload.File :=
  ImageUpload.mkFile "fundus.png" "image/png" 10485761 [].

Definition a_pdf : ImageUpload.File :=
  ImageUpload.mkFile "report.pdf" "application/pdf" 10 [].

(** A refused drop, a drop, an analysis started; the file is removed and
    another dropped before the timer fires. *)
Definition session_at_the_desk : list ImageUpload.Action :=
  [ ImageUpload.Drop [a_pdf] "blob:0"; ImageUpload.Drop [file1] "blob:1";
    ImageUpload.Analyze 0; ImageUpload.Remove;
    ImageUpload.Drop [at_limit] "blob:2"; ImageUpload.TimerFires ].

Definition empty_desk : ImageUpload.Desk :=
  ImageUpload.mkDesk ImageUpload.initial None.

(** Two handlers awaiting their refresh. *)
Definition two_awaiting : Loop :=
  run env (idle session) both_fail.

Definition refusal : AxiosError :=
  mkError (refresh_request env "r1") (Some (mkResponse 401 (body "" ""))).


(** The browser once the login request has been accepted. *)
Definition after_login : World :=
  (auth_login env accepts (browser ∅) "testdoctor" "testpass123").1.

(** The requests of [both_fail], as their handlers hold them. *)
Definition held (u : string) : Config := set_retry true (config (err u)).


(** 401, then a refresh that answers an empty access token, then 200. *)
Definition empty_refresh : Network :=
  scripted [ Http 401 (body "" ""); Http 200 (body "" ""); Http 200 (body "" "") ].

(** The browser that this exchange leaves: the empty string is stored as
    the access token. *)
Definition after_empty_refresh : World :=
  (api env empty_refresh (browser session) get_patients).1.

End Scenario.

(** ** Statements of the specification that the code does not meet, as
    they are worded *)

(** A 401 on a request not yet retried, with no refresh token stored: the
    session is cleared, the application is sent to the login page and the
    call is rejected. *)
Definition teardown_without_refresh_token
           (env : option string) (net : Network) (w : World) (c : Config) : Prop :=
  let c1 := request_interceptor (storage w) (mergeConfig env c) in
  _retry c = false ->
  (exists d, net (sent (trace w)) c1 = Http 401 d) ->
  truthy (getItem (storage w) "refresh_token") = false ->
  let '(w', r) := api env net w c in
  session_empty (storage w') /\ href w' = "/login" /\ exists e, r = Some (Rejected e).

(** [login] is atomic on the token store: a rejected login writes no session
    key and leaves the user state null; a fulfilled one has written the three
    keys from the response and set the user. *)
Definition login_atomic
           (env : option string) (net : Network) (stringify : User -> string)
           (w : World) (st : AuthState) (username password : string) : Prop :=
  user_state st = None ->
  match login env net stringify w st username password with
  | (w', st', Some (Rejected _)) =>
      storage w' = storage w /\ user_state st' = None
  | (w', st', Some (Fulfilled _)) =>
      exists d,
        getItem (storage w') "access_token" = Some (access d) /\
        getItem (storage w') "refresh_token" = Some (refresh d) /\
        getItem (storage w') "user" = Some (stringify (user d)) /\
        user_state st' = Some (user d)
  | (_, _, None) => False
  end.

(** ** The requests of the instance and the token store they were sent under *)

(** The requests that a run of effects puts on the network through the
    instance (they carry its defaults; the refresh request, made with the
    global axios, does not), each with the token store as it was when the
    request was sent. *)
Fixpoint instance_sends (ls : gmap string string) (t : list Effect)
  : list (gmap string string * Config) :=
  match t with
  | [] => []
  | Send x :: t =>
      match baseURL x with
      | Some _ => (ls, x) :: instance_sends ls t
      | None => instance_sends ls t
      end
  | SetItem k v :: t => instance_sends (setItem k v ls) t
  | RemoveItem k :: t => instance_sends (removeItem k ls) t
  | _ :: t => instance_sends ls t
  end.

(** The effects of one call. *)
Definition effects_of_call (env : option string) (net : Network) (w : World)
           (c : Config) : list Effect :=
  drop (length (trace w)) (trace (api env net w c).1).

(** The two ways to read "an access token is present": the key holds a
    non-empty string (the test [if (token)]), or the key is there. *)
Definition nonempty_token (v : option string) : bool := truthy v.

Definition token_key (v : option string) : bool :=
  match v with
  | Some _ => true
  | None => false
  end.

(** The header is ["Bearer " + the stored token] when a token is present,
    and there is no header when none is: of every request of a call. *)
Definition bearer_iff_token (present : option string -> bool)
           (ls : gmap string string) (x : Config) : Prop :=
  headers x !! "Authorization" =
    if present (getItem ls "access_token")
    then Some ("Bearer " +:+ js_String (getItem ls "access_token"))
    else None.

Definition every_request_bearer_iff_token (present : option string -> bool)
           (env : option string) (net : Network) (w : World) (c : Config) : Prop :=
  Forall (fun sent_under => bearer_iff_token present sent_under.1 sent_under.2)
         (instance_sends (storage w) (effects_of_call env net w c)).

(** What the code does: as above for a non-empty token and for no token;
    with the empty string stored, a first request has no header and the
    retry has ["Bearer "], the header that the response interceptor wrote
    from the empty refreshed token. *)
Definition bearer_as_sent (ls : gmap string string) (x : Config) : Prop :=
  headers x !! "Authorization" =
    match getItem ls "access_token" with
    | Some token =>
        if String.eqb token ""
        then (if _retry x then Some "Bearer " else None)
        else Some ("Bearer " +:+ token)
    | None => None
    end.

(** ** Basic facts *)

Lemma truthy_Some (v : option string) :
  truthy v = true <-> exists t, v = Some t /\ t <> "".
Proof.
  destruct v as [t|]; simpl.
  - destruct (String.eqb_spec t "") as [->|Hne]; simpl.
    + split; [discriminate | intros (t & [= <-] & Hne); congruence].
    + split; [eauto | done].
  - split; [discriminate | intros (t & [=] & _)].
Qed.

Lemma truthy_nonempty (t : string) : t <> "" -> truthy (Some t) = true.
Proof. intros Hne. apply truthy_Some. eauto. Qed.

Lemma sent_app (t1 t2 : list Effect) : sent (t1 ++ t2) = sent t1 ++ sent t2.
Proof.
  induction t1 as [|e t1 IH]; [done|].
  destruct e; simpl; by rewrite IH.
Qed.

Lemma settle_config_of_error (c : Config) (r : Reply) (e : AxiosError) :
  settle c r = Rejected e -> config e = c.
Proof.
  destruct r as [st d|]; simpl.
  - destruct ((200 <=? st)%Z && (st <? 300)%Z); [discriminate|]. by intros [= <-].
  - by intros [= <-].
Qed.

Lemma settle_401 (c : Config) (d : ResponseData) :
  settle c (Http 401 d) = Rejected (mkError c (Some (mkResponse 401 d))).
Proof. reflexivity. Qed.

Lemma set_header_twice (k v : string) (c : Config) :
  set_header k v (set_header k v c) = set_header k v c.
Proof. unfold set_header; simpl. by rewrite insert_insert_eq. Qed.

Lemma session_empty_after_removals (ls : gmap string string) :
  session_empty
    (removeItem "user" (removeItem "refresh_token" (removeItem "access_token" ls))).
Proof.
  unfold session_empty, getItem, removeItem.
  repeat split; by simplify_map_eq.
Qed.

Section ClientFacts.

Variable env : option string.
Variable net : Network.

Lemma mergeConfig_twice (c : Config) :
  mergeConfig env (mergeConfig env c) = mergeConfig env c.
Proof. unfold mergeConfig; simpl. by destruct (baseURL c), (timeout c). Qed.

Lemma mergeConfig_retry (c : Config) : _retry (mergeConfig env c) = _retry c.
Proof. reflexivity. Qed.

Lemma request_interceptor_retry (ls : gmap string string) (c : Config) :
  _retry (request_interceptor ls c) = _retry c.
Proof. unfold request_interceptor. by destruct (truthy _). Qed.

(** The handler returns at once, with the error it was given, unless the
    status is 401 and the request has not been retried. *)
Lemma on_rejected_passes (ls : gmap string string) (error : AxiosError) :
  status_is_401 error = false \/ _retry (config error) = true ->
  on_rejected env ls error = Returned (Rejected error).
Proof.
  intros H. unfold on_rejected.
  destruct H as [-> | ->]; [done|]. by rewrite andb_false_r.
Qed.

Lemma api_n_S (n : nat) (w : World) (c : Config) :
  api_n env net (S n) w c =
    let c1 := request_interceptor (storage w) (mergeConfig env c) in
    match settle c1 (net (sent (trace w)) c1) with
    | Fulfilled resp => (emit (Send c1) w, Some (Fulfilled resp))
    | Rejected error =>
        response_interceptor_rejected env net (api_n env net n) (emit (Send c1) w) error
    end.
Proof. reflexivity. Qed.

(** The request that a suspended handler holds is marked as retried. *)
Lemma on_rejected_marks (ls : gmap string string) (error : AxiosError)
      (rq orig : Config) :
  on_rejected env ls error = AwaitingRefresh rq orig -> _retry orig = true.
Proof.
  unfold on_rejected.
  destruct (status_is_401 error && negb (_retry (config error))); [|done].
  destruct (truthy _); [|done]. by intros [= _ <-].
Qed.

Lemma on_refresh_settled_marks (w w' : World) (orig c : Config) (r : Settled) :
  on_refresh_settled w orig r = (w', Reissue c) -> _retry c = _retry orig.
Proof. destruct r; simpl; [by intros [= _ <-] | done]. Qed.

(** The handler calls the instance on retried requests only. *)
Lemma response_interceptor_rejected_ext
      (self1 self2 : World -> Config -> World * option Settled)
      (w : World) (error : AxiosError) :
  (forall w c, _retry c = true -> self1 w c = self2 w c) ->
  response_interceptor_rejected env net self1 w error =
  response_interceptor_rejected env net self2 w error.
Proof.
  intros Hself. unfold response_interceptor_rejected.
  destruct (on_rejected env (storage w) error) as [r|rq orig] eqn:Hon; [done|].
  apply on_rejected_marks in Hon. unfold transport.
  destruct (on_refresh_settled _ orig _) as [w' [c|r]] eqn:Hres; [|done].
  apply on_refresh_settled_marks in Hres. apply Hself. congruence.
Qed.

(** A request already marked as retried is sent once and its outcome is the
    outcome of the call, at any nesting depth. *)
Lemma api_n_retried (n : nat) (w : World) (c : Config) :
  _retry c = true ->
  let c' := request_interceptor (storage w) (mergeConfig env c) in
  api_n env net (S n) w c =
    (emit (Send c') w, Some (settle c' (net (sent (trace w)) c'))).
Proof.
  intros Hr c'. rewrite api_n_S. cbv zeta. fold c'.
  destruct (settle c' (net (sent (trace w)) c')) as [resp|e] eqn:Hs; [done|].
  unfold response_interceptor_rejected.
  rewrite on_rejected_passes; [done|].
  right. rewrite (settle_config_of_error _ _ _ Hs).
  unfold c'. by rewrite request_interceptor_retry, mergeConfig_retry.
Qed.

(** Two levels are enough: a deeper bound changes nothing, and the call
    always settles. *)
Lemma api_n_enough (n : nat) (w : World) (c : Config) :
  api_n env net (2 + n) w c = api env net w c.
Proof.
  unfold api. change (2 + n)%nat with (S (S n)).
  rewrite !(api_n_S (S _)). cbv zeta.
  destruct (settle _ _) as [resp|e]; [done|].
  apply response_interceptor_rejected_ext. intros w' c' Hr.
  by rewrite (api_n_retried n), (api_n_retried 0).
Qed.

Lemma api_settles (w : World) (c : Config) :
  exists r, snd (api env net w c) = Some r.
Proof.
  unfold api. rewrite api_n_S. cbv zeta.
  destruct (settle _ _) as [resp|e]; [by eexists|].
  unfold response_interceptor_rejected.
  destruct (on_rejected env (storage _) e) as [r|rq orig] eqn:Hon; [by eexists|].
  apply on_rejected_marks in Hon. unfold transport.
  destruct (on_refresh_settled _ orig _) as [w' [c'|r]] eqn:Hres; [|by eexists].
  apply on_refresh_settled_marks in Hres.
  rewrite (api_n_retried 0) by congruence. by eexists.
Qed.

End ClientFacts.

(** ** The three ways a 401 on a fresh request is handled *)

Section Unauthorized.

Variable env : option string.
Variable net : Network.
Variable w : World.
Variable c : Config.
Variable d : ResponseData.

Let c1 := request_interceptor (storage w) (mergeConfig env c).

Hypothesis fresh : _retry c = false.
Hypothesis unauthorized : net (sent (trace w)) c1 = Http 401 d.

Lemma c1_defaults : is_Some (baseURL c1) /\ is_Some (timeout c1).
Proof.
  unfold c1, request_interceptor.
  destruct (truthy _); simpl; destruct (baseURL c), (timeout c); by eauto.
Qed.

Lemma c1_fresh : _retry c1 = false.
Proof. unfold c1. by rewrite request_interceptor_retry, mergeConfig_retry. Qed.

Lemma first_attempt_on_rejected :
  api env net w c =
    response_interceptor_rejected env net (api_n env net 1) (emit (Send c1) w)
      (mkError c1 (Some (mkResponse 401 d))).
Proof.
  unfold api. rewrite api_n_S. cbv zeta. fold c1.
  by rewrite unauthorized, settle_401.
Qed.

(** No refresh token: nothing is sent, written or navigated; the call is
    rejected with the error of the failed request, whose config now carries
    the retry mark. *)
Lemma api_401_without_refresh_token :
  truthy (getItem (storage w) "refresh_token") = false ->
  api env net w c =
    (emit (Send c1) w,
     Some (Rejected (mkError (set_retry true c1) (Some (mkResponse 401 d))))).
Proof.
  intros Hno. rewrite first_attempt_on_rejected.
  unfold response_interceptor_rejected, on_rejected. simpl.
  by rewrite c1_fresh, Hno.
Qed.

Variable tok : string.
Hypothesis stored : getItem (storage w) "refresh_token" = Some tok.
Hypothesis nonempty : tok <> "".

Let rq := refresh_request env tok.

Lemma first_attempt_awaits :
  on_rejected env (storage (emit (Send c1) w)) (mkError c1 (Some (mkResponse 401 d)))
  = AwaitingRefresh rq (set_retry true c1).
Proof.
  unfold on_rejected. simpl. by rewrite c1_fresh, stored, truthy_nonempty.
Qed.

(** The refresh exchange fails: the session is removed, the application
    goes to the login page, the call is rejected with the refresh error. *)
Lemma api_401_refresh_failed (refreshError : AxiosError) :
  settle rq (net (sent (trace w) ++ [c1]) rq) = Rejected refreshError ->
  api env net w c =
    (navigate "/login"
       (ls_removeItem "user"
          (ls_removeItem "refresh_token"
             (ls_removeItem "access_token"
                (emit (Send rq) (emit (Send c1) w))))),
     Some (Rejected refreshError)).
Proof.
  intros Hfail. rewrite first_attempt_on_rejected.
  unfold response_interceptor_rejected. rewrite first_attempt_awaits.
  unfold transport. simpl trace. rewrite sent_app. simpl sent.
  by rewrite Hfail.
Qed.

(** The reissued request leaves the request interceptor as the handler
    built it. *)
Lemma reissue_intercepted (ls : gmap string string) (a : string) :
  let c2 := set_header "Authorization" ("Bearer " +:+ a) (set_retry true c1) in
  request_interceptor (<["access_token" := a]> ls) (mergeConfig env c2) = c2.
Proof.
  intros c2.
  assert (mergeConfig env c2 = c2) as ->.
  { destruct c1_defaults as [[b Hb] [t Ht]].
    unfold c2, set_header, set_retry, mergeConfig. simpl. by rewrite Hb, Ht. }
  unfold request_interceptor, getItem. rewrite lookup_insert_eq. simpl.
  destruct (String.eqb a ""); simpl; [done|].
  unfold c2. apply set_header_twice.
Qed.

(** The refresh exchange succeeds: the new access token is stored, the
    request is reissued with it, and the outcome of the reissued request is
    the outcome of the call. *)
Lemma api_401_refreshed (refreshed : Response) :
  settle rq (net (sent (trace w) ++ [c1]) rq) = Fulfilled refreshed ->
  let a := access (rdata refreshed) in
  let c2 := set_header "Authorization" ("Bearer " +:+ a) (set_retry true c1) in
  api env net w c =
    (emit (Send c2)
       (ls_setItem "access_token" a (emit (Send rq) (emit (Send c1) w))),
     Some (settle c2 (net (sent (trace w) ++ [c1; rq]) c2))).
Proof.
  intros Hok a c2. rewrite first_attempt_on_rejected.
  unfold response_interceptor_rejected. rewrite first_attempt_awaits.
  unfold transport. simpl trace. rewrite sent_app. simpl sent.
  rewrite Hok. simpl on_refresh_settled. cbv iota beta. fold a.
  rewrite api_n_retried by done. cbv zeta.
  simpl storage. unfold setItem. rewrite reissue_intercepted. fold c2.
  simpl trace. rewrite !sent_app. simpl sent.
  rewrite !app_nil_r, <- app_assoc. done.
Qed.

End Unauthorized.

(** ** Counting requests *)

Lemma times_sent_app (c : Config) (t1 t2 : list Effect) :
  times_sent c (t1 ++ t2) = (times_sent c t1 + times_sent c t2)%nat.
Proof. unfold times_sent. by rewrite sent_app, filter_app, length_app. Qed.

Lemma times_sent_Send (c x : Config) (t : list Effect) :
  times_sent c (t ++ [Send x]) =
  (times_sent c t + if decide (x = c) then 1 else 0)%nat.
Proof.
  rewrite times_sent_app. f_equal. unfold times_sent. simpl.
  rewrite filter_cons, filter_nil. by destruct (decide (x = c)).
Qed.

Lemma times_sent_other (c : Config) (e : Effect) (t : list Effect) :
  (forall x, e <> Send x) -> times_sent c (t ++ [e]) = times_sent c t.
Proof.
  intros He. rewrite times_sent_app.
  destruct e; try (unfold times_sent; simpl; lia). by destruct (He c0).
Qed.

(** Requests of the instance carry its defaults, the refresh request does
    not: the two are never confused. *)
Lemma intercepted_is_not_refresh (env : option string) (ls : gmap string string)
      (c : Config) (tok : string) :
  request_interceptor ls (mergeConfig env c) <> refresh_request env tok.
Proof.
  intros H. apply (f_equal baseURL) in H. revert H.
  unfold request_interceptor. destruct (truthy _); simpl; by destruct (baseURL c).
Qed.

Lemma marked_is_not_refresh (env : option string) (c : Config) (k v tok : string) :
  set_header k v (set_retry true c) <> refresh_request env tok.
Proof. intros H. by apply (f_equal _retry) in H. Qed.

(** The request interceptor touches nothing but the headers. *)
Lemma request_interceptor_same_request (env : option string)
      (ls : gmap string string) (c : Config) :
  let c1 := request_interceptor ls (mergeConfig env c) in
  url c1 = url c /\ method c1 = method c /\ params c1 = params c /\ data c1 = data c.
Proof. unfold request_interceptor. by destruct (truthy _). Qed.

(** ** The token lifecycle *)

(** C1: a request that is answered 401 while a session is stored, and that
    is not marked as retried, makes the client perform exactly one refresh
    exchange: one POST to [<NEXT_PUBLIC_API_BASE_URL>/auth/refresh/] whose
    body is [{ refresh: <the stored refresh token> }], without headers,
    sent right after the failed request.  When that exchange yields a new
    access token the original request (same url, method, parameters and
    body) is reissued exactly once, with [Bearer <new token>] as its
    authorization header, and the caller's promise settles as the reissued
    request settles. *)
Theorem retry_once_with_refreshed_token
        (env : option string) (net : Network) (w : World) (c : Config)
        (d : ResponseData) (tok : string) :
  let c1 := request_interceptor (storage w) (mergeConfig env c) in
  let rq := mkConfig (js_String env +:+ "/auth/refresh/") POST None None None ∅
                     (RefreshBody tok) false in
  _retry c = false ->
  getItem (storage w) "refresh_token" = Some tok ->
  tok <> "" ->
  net (sent (trace w)) c1 = Http 401 d ->
  times_sent rq (trace (api env net w c).1) = S (times_sent rq (trace w)) /\
  (exists rest, trace (api env net w c).1 = trace w ++ Send c1 :: Send rq :: rest) /\
  forall refreshed,
    settle rq (net (sent (trace w) ++ [c1]) rq) = Fulfilled refreshed ->
    let a := access (rdata refreshed) in
    let c2 := set_header "Authorization" ("Bearer " +:+ a) (set_retry true c1) in
    trace (api env net w c).1 =
      trace w ++ [Send c1; Send rq; SetItem "access_token" a; Send c2] /\
    (url c2 = url c /\ method c2 = method c /\ params c2 = params c /\
     data c2 = data c) /\
    headers c2 !! "Authorization" = Some ("Bearer " +:+ a) /\
    (api env net w c).2 = Some (settle c2 (net (sent (trace w) ++ [c1; rq]) c2)).
Proof.
  intros c1 rq Hfresh Hstored Hne H401.
  change rq with (refresh_request env tok) in *.
  set (rq' := refresh_request env tok) in *.
  assert (c1 <> rq') as Hc1 by apply intercepted_is_not_refresh.
  split; [|split].
  - destruct (settle rq' (net (sent (trace w) ++ [c1]) rq')) as [refreshed|e] eqn:Hs.
    + rewrite (api_401_refreshed env net w c d Hfresh H401 tok Hstored Hne refreshed Hs).
      simpl. rewrite !times_sent_Send, times_sent_other by done.
      rewrite !times_sent_Send.
      rewrite (decide_False (P := c1 = rq')) by done.
      rewrite (decide_True (P := rq' = rq')) by done.
      rewrite decide_False by apply marked_is_not_refresh. lia.
    + rewrite (api_401_refresh_failed env net w c d Hfresh H401 tok Hstored Hne e Hs).
      simpl. rewrite !times_sent_other by done. rewrite !times_sent_Send.
      rewrite (decide_False (P := c1 = rq')) by done.
      rewrite (decide_True (P := rq' = rq')) by done. lia.
  - destruct (settle rq' (net (sent (trace w) ++ [c1]) rq')) as [refreshed|e] eqn:Hs.
    + rewrite (api_401_refreshed env net w c d Hfresh H401 tok Hstored Hne refreshed Hs).
      simpl. eexists. by rewrite <- !app_assoc.
    + rewrite (api_401_refresh_failed env net w c d Hfresh H401 tok Hstored Hne e Hs).
      simpl. eexists. by rewrite <- !app_assoc.
  - intros refreshed Hs a c2.
    rewrite (api_401_refreshed env net w c d Hfresh H401 tok Hstored Hne refreshed Hs).
    simpl. repeat split.
    + by rewrite <- !app_assoc.
    + apply (request_interceptor_same_request env (storage w) c).
    + apply (request_interceptor_same_request env (storage w) c).
    + apply (request_interceptor_same_request env (storage w) c).
    + apply (request_interceptor_same_request env (storage w) c).
    + apply lookup_insert_eq.
Qed.

(** C2: when the refresh exchange started by a 401 fails, the client removes
    [access_token], [refresh_token] and [user] from the token store, which
    ends with none of the three, sends the application to ["/login"], and
    rejects the caller's promise with the refresh error. *)
Theorem failed_refresh_tears_down
        (env : option string) (net : Network) (w : World) (c : Config)
        (d : ResponseData) (tok : string) (refreshError : AxiosError) :
  let c1 := request_interceptor (storage w) (mergeConfig env c) in
  let rq := refresh_request env tok in
  _retry c = false ->
  getItem (storage w) "refresh_token" = Some tok ->
  tok <> "" ->
  net (sent (trace w)) c1 = Http 401 d ->
  settle rq (net (sent (trace w) ++ [c1]) rq) = Rejected refreshError ->
  session_empty (storage (api env net w c).1) /\
  trace (api env net w c).1 =
    trace w ++ [Send c1; Send rq; RemoveItem "access_token";
                RemoveItem "refresh_token"; RemoveItem "user"; Navigate "/login"] /\
  href (api env net w c).1 = "/login" /\
  (api env net w c).2 = Some (Rejected refreshError).
Proof.
  intros c1 rq Hfresh Hstored Hne H401 Hs.
  rewrite (api_401_refresh_failed env net w c d Hfresh H401 tok Hstored Hne _ Hs).
  simpl. repeat split; try apply session_empty_after_removals.
  by rewrite <- !app_assoc.
Qed.

(** C3, as the code has it: a 401 on a request not marked as retried, with
    no refresh token in the token store, starts no refresh exchange and no
    retry, leaves the token store and the location as they were, and rejects
    the caller's promise with the error of the failed request (whose config
    is now marked as retried). *)
Theorem no_refresh_token_rejects_only
        (env : option string) (net : Network) (w : World) (c : Config)
        (d : ResponseData) :
  let c1 := request_interceptor (storage w) (mergeConfig env c) in
  _retry c = false ->
  truthy (getItem (storage w) "refresh_token") = false ->
  net (sent (trace w)) c1 = Http 401 d ->
  storage (api env net w c).1 = storage w /\
  href (api env net w c).1 = href w /\
  trace (api env net w c).1 = trace w ++ [Send c1] /\
  (api env net w c).2 =
    Some (Rejected (mkError (set_retry true c1) (Some (mkResponse 401 d)))).
Proof.
  intros c1 Hfresh Hno H401.
  by rewrite (api_401_without_refresh_token env net w c d Hfresh H401 Hno).
Qed.

(** C5: a successful refresh exchange replaces the stored [access_token]
    with the [access] field of the refresh response and nothing else: once
    the 401 is handled, retry included, [refresh_token], [user] and every
    other key hold what they held before, and the only write to the store is
    the one to [access_token]. *)
Theorem refresh_replaces_access_token_only
        (env : option string) (net : Network) (w : World) (c : Config)
        (d : ResponseData) (tok : string) (refreshed : Response) :
  let c1 := request_interceptor (storage w) (mergeConfig env c) in
  let rq := refresh_request env tok in
  let w' := (api env net w c).1 in
  _retry c = false ->
  getItem (storage w) "refresh_token" = Some tok ->
  tok <> "" ->
  net (sent (trace w)) c1 = Http 401 d ->
  settle rq (net (sent (trace w) ++ [c1]) rq) = Fulfilled refreshed ->
  getItem (storage w') "access_token" = Some (access (rdata refreshed)) /\
  getItem (storage w') "refresh_token" = getItem (storage w) "refresh_token" /\
  getItem (storage w') "user" = getItem (storage w) "user" /\
  (forall k, k <> "access_token" -> getItem (storage w') k = getItem (storage w) k) /\
  exists c2,
    trace w' = trace w ++ [Send c1; Send rq;
                           SetItem "access_token" (access (rdata refreshed)); Send c2].
Proof.
  intros c1 rq w' Hfresh Hstored Hne H401 Hs. unfold w'.
  rewrite (api_401_refreshed env net w c d Hfresh H401 tok Hstored Hne refreshed Hs).
  simpl. unfold getItem, setItem. repeat split.
  - apply lookup_insert_eq.
  - by rewrite lookup_insert_ne.
  - by rewrite lookup_insert_ne.
  - intros k Hk. by rewrite lookup_insert_ne.
  - eexists. by rewrite <- !app_assoc.
Qed.

(** C6: when the failed response is not a 401, or the request is already
    marked as retried, the rejected branch of the response interceptor hands
    back the browser as it found it (nothing sent: no refresh exchange, no
    retry; nothing written: the token store is unchanged) and rejects with
    the very error it received.  The instance [self] is arbitrary, so it is
    not called. *)
Theorem other_failures_pass_through
        (env : option string) (net : Network)
        (self : World -> Config -> World * option Settled)
        (w : World) (error : AxiosError) :
  status_is_401 error = false \/ _retry (config error) = true ->
  response_interceptor_rejected env net self w error = (w, Some (Rejected error)).
Proof.
  intros H. unfold response_interceptor_rejected.
  by rewrite on_rejected_passes.
Qed.

(** The same on a whole call: when the request is rejected with a status
    other than 401 or without a response, it was sent once and the call is
    rejected with that error. *)
Lemma api_single_attempt
      (env : option string) (net : Network) (w : World) (c : Config)
      (error : AxiosError) :
  let c1 := request_interceptor (storage w) (mergeConfig env c) in
  settle c1 (net (sent (trace w)) c1) = Rejected error ->
  status_is_401 error = false \/ _retry c = true ->
  api env net w c = (emit (Send c1) w, Some (Rejected error)).
Proof.
  intros c1 Hs H. unfold api. rewrite api_n_S. cbv zeta. fold c1. rewrite Hs.
  unfold response_interceptor_rejected. rewrite on_rejected_passes; [done|].
  destruct H as [H|H]; [by left | right].
  rewrite (settle_config_of_error _ _ _ Hs). unfold c1.
  by rewrite request_interceptor_retry, mergeConfig_retry.
Qed.

(** Every call extends the trace; its first effect is the sending of the
    intercepted request. *)
Lemma api_n_first_send (env : option string) (net : Network) (n : nat)
      (w : World) (c : Config) :
  let c1 := request_interceptor (storage w) (mergeConfig env c) in
  exists rest, trace (api_n env net (S n) w c).1 = trace w ++ Send c1 :: rest.
Proof.
  intros c1. rewrite api_n_S. cbv zeta. fold c1.
  destruct (settle c1 _) as [resp|e]; [by exists []|].
  unfold response_interceptor_rejected.
  destruct (on_rejected _ _ e) as [r|rq orig] eqn:Hon; [by exists []|].
  apply on_rejected_marks in Hon. unfold transport.
  destruct (settle rq _) as [resp|e']; simpl.
  - destruct n as [|n].
    + simpl. eexists. by rewrite <- !app_assoc.
    + rewrite api_n_retried by done. simpl. eexists. by rewrite <- !app_assoc.
  - eexists. by rewrite <- !app_assoc.
Qed.

(** The first request of a call of a domain client carries the
    authorization header ["Bearer " + access_token] exactly when a non-empty
    access token is stored, and no authorization header otherwise. *)
Lemma first_request_bearer
        (env : option string) (net : Network) (w : World) (call : Call) :
  let c1 := request_interceptor (storage w) (mergeConfig env (call_config call)) in
  (exists rest,
      trace (api env net w (call_config call)).1 = trace w ++ Send c1 :: rest) /\
  headers c1 !! "Authorization" =
    match getItem (storage w) "access_token" with
    | Some token => if String.eqb token "" then None else Some ("Bearer " +:+ token)
    | None => None
    end.
Proof.
  intros c1. split; [apply api_n_first_send|].
  unfold c1, request_interceptor.
  destruct (getItem (storage w) "access_token") as [token|]; simpl.
  - destruct (String.eqb token ""); simpl.
    + by destruct call.
    + apply lookup_insert_eq.
  - by destruct call.
Qed.

(** C7: [logout()] called twice leaves the token store without
    [access_token], [refresh_token] and [user] after the first call and
    after the second, which changes nothing more; the user state is null
    both times.  [logout] is a total function on the browser state: it has
    no failing outcome. *)
Theorem logout_twice (w : World) (st : AuthState) :
  let '(w1, st1) := logout w st in
  let '(w2, st2) := logout w1 st1 in
  session_empty (storage w1) /\ session_empty (storage w2) /\
  storage w2 = storage w1 /\
  user_state st1 = None /\ user_state st2 = None.
Proof.
  simpl. repeat split; try apply session_empty_after_removals.
  unfold removeItem. apply map_eq. intros k.
  destruct (decide (k = "user")) as [->|]; [by simplify_map_eq|].
  destruct (decide (k = "refresh_token")) as [->|]; [by simplify_map_eq|].
  destruct (decide (k = "access_token")) as [->|]; by simplify_map_eq.
Qed.

(** C8: for every uploaded file [analyzeImage] awaits one timer of 3000 ms
    and then delivers one diagnosis whose prediction, confidence (0.87),
    severity, recommendations, detected features and risk factors are fixed;
    the file contributes its name only, the clock the analysis date: any
    other file at any other time yields the same object up to [filename]
    and [analysisDate]. *)
Theorem analysis_is_mocked
        (toISOString : Z -> string)
        (callback_throws : ImageUpload.Diagnosis -> bool)
        (file : ImageUpload.File) (now : Z) :
  let run := ImageUpload.analyzeImage toISOString callback_throws in
  exists r rest,
    run (Some file) now =
      ImageUpload.SetIsAnalyzing true :: ImageUpload.FormDataAppend "image" file
      :: ImageUpload.SetTimeout 3000 :: ImageUpload.OnAnalysisComplete r :: rest /\
    ImageUpload.delays (run (Some file) now) = [3000%Z] /\
    ImageUpload.delivered (run (Some file) now) = [r] /\
    ImageUpload.prediction r = "Diabetic Retinopathy Detected" /\
    ImageUpload.confidence r = 87 # 100 /\
    ImageUpload.severity r = "Moderate" /\
    ImageUpload.recommendations r =
      [ "Consult with ophthalmologist within 2 weeks";
        "Monitor blood sugar levels closely";
        "Schedule follow-up examination in 3 months" ] /\
    ImageUpload.detectedFeatures r =
      [ "Microaneurysms present"; "Hard exudates detected";
        "Cotton wool spots identified" ] /\
    ImageUpload.riskFactors r = [ "Diabetes"; "Hypertension" ] /\
    ImageUpload.filename r = ImageUpload.name file /\
    ImageUpload.analysisDate r = toISOString now /\
    forall (file' : ImageUpload.File) (now' : Z),
      ImageUpload.delays (run (Some file') now') = [3000%Z] /\
      ImageUpload.delivered (run (Some file') now') =
        [ ImageUpload.mkDiagnosis
            (ImageUpload.prediction r) (ImageUpload.confidence r)
            (ImageUpload.severity r) (ImageUpload.recommendations r)
            (ImageUpload.detectedFeatures r) (ImageUpload.riskFactors r)
            (ImageUpload.name file') (toISOString now') ].
Proof.
  intros run. eexists _, _. split; [reflexivity|].
  unfold run, ImageUpload.analyzeImage.
  repeat split.
  - simpl. by destruct (callback_throws _).
  - simpl. by destruct (callback_throws _).
  - simpl. by destruct (callback_throws _).
  - simpl. by destruct (callback_throws _).
Qed.

(** ** Login *)

Lemma settle_rejected_401 (c : Config) (r : Reply) (e : AxiosError) :
  settle c r = Rejected e -> status_is_401 e = true -> exists d, r = Http 401 d.
Proof.
  destruct r as [st d|]; simpl.
  - destruct ((200 <=? st)%Z && (st <? 300)%Z); [discriminate|].
    intros [= <-]. unfold status_is_401. simpl. intros ->%Z.eqb_eq. by exists d.
  - by intros [= <-].
Qed.

(** A rejected call in which the interceptor did not start a refresh has
    sent its request once and touched nothing else. *)
Lemma api_rejected_without_refresh
      (env : option string) (net : Network) (w w' : World) (c : Config)
      (error : AxiosError) :
  let c1 := request_interceptor (storage w) (mergeConfig env c) in
  _retry c = false ->
  api env net w c = (w', Some (Rejected error)) ->
  (forall d, net (sent (trace w)) c1 <> Http 401 d) \/
  truthy (getItem (storage w) "refresh_token") = false ->
  w' = emit (Send c1) w.
Proof.
  intros c1 Hfresh Hapi Hnot.
  destruct (settle c1 (net (sent (trace w)) c1)) as [resp|e] eqn:Hs.
  - unfold api in Hapi. rewrite api_n_S in Hapi. cbv zeta in Hapi.
    fold c1 in Hapi. rewrite Hs in Hapi. congruence.
  - destruct (status_is_401 e) eqn:H401.
    + destruct (settle_rejected_401 _ _ _ Hs H401) as [d Hd].
      destruct Hnot as [Hnot|Hno]; [by destruct (Hnot d)|].
      rewrite (api_401_without_refresh_token env net w c d Hfresh Hd Hno) in Hapi.
      by injection Hapi as <- _.
    + rewrite (api_single_attempt env net w c e Hs) in Hapi by (by left).
      by injection Hapi as <- _.
Qed.

(** C10, as the code has it: when the login request is rejected, [login]
    itself writes nothing and leaves the user state as it was, rethrowing
    the error; the browser is then as the request left it, which is
    untouched (one request sent, the token store unchanged) unless the
    response interceptor started a refresh, that is unless the login was
    answered 401 while a refresh token was stored.  When the login request
    is fulfilled, [access_token], [refresh_token] and [user] are written
    from the response, in this order, and then the user state is set. *)
Theorem login_writes_session_on_success_only
        (env : option string) (net : Network) (stringify : User -> string)
        (w : World) (st : AuthState) (username password : string) :
  let c := call_config (AuthLogin username password) in
  let c1 := request_interceptor (storage w) (mergeConfig env c) in
  match login env net stringify w st username password with
  | (w', st', Some (Rejected error)) =>
      st' = st /\
      api env net w c = (w', Some (Rejected error)) /\
      ((forall d, net (sent (trace w)) c1 <> Http 401 d) \/
       truthy (getItem (storage w) "refresh_token") = false ->
       storage w' = storage w /\ trace w' = trace w ++ [Send c1])
  | (w', st', Some (Fulfilled _)) =>
      exists wa response,
        api env net w c = (wa, Some (Fulfilled response)) /\
        let d := rdata response in
        trace w' = trace wa ++ [ SetItem "access_token" (access d);
                                 SetItem "refresh_token" (refresh d);
                                 SetItem "user" (stringify (user d));
                                 SetUser (Some (user d)) ] /\
        getItem (storage w') "access_token" = Some (access d) /\
        getItem (storage w') "refresh_token" = Some (refresh d) /\
        getItem (storage w') "user" = Some (stringify (user d)) /\
        st' = setUser (Some (user d)) st
  | (_, _, None) => False
  end.
Proof.
  intros c c1. unfold login, auth_login.
  change (request POST "/auth/login/" None ∅ (Credentials username password)) with c.
  destruct (api env net w c) as [wa [[response|error]|]] eqn:Hapi; simpl.
  - exists wa, response. split; [done|]. simpl.
    unfold getItem, setItem. repeat split.
    + by rewrite <- !app_assoc.
    + by simplify_map_eq.
    + by simplify_map_eq.
    + by simplify_map_eq.
  - split; [done|]. split; [done|]. intros Hnot.
    by rewrite (api_rejected_without_refresh env net w wa c error eq_refl Hapi Hnot).
  - destruct (api_settles env net w c) as [r Hr]. rewrite Hapi in Hr. discriminate.
Qed.

(** ** Several 401s at once *)

Section Interleaving.

Variable env : option string.
Variable tok : string.
Hypothesis nonempty : tok <> "".

Let rq := refresh_request env tok.

(** One event, while the refresh token [tok] is stored: a 401 on a fresh
    request sends one more refresh request, whatever is already awaited;
    no other event sends one; a successful refresh keeps [tok]. *)
Lemma step_refreshes (l : Loop) (ev : Event) :
  getItem (storage (world l)) "refresh_token" = Some tok ->
  refresh_fulfilled ev = true ->
  getItem (storage (world (step env l ev))) "refresh_token" = Some tok /\
  times_sent rq (trace (world (step env l ev))) =
    (times_sent rq (trace (world l)) + if starts_refresh ev then 1 else 0)%nat.
Proof.
  intros Hstored Hok. destruct ev as [error|ticket [response|e]]; [| |done].
  - simpl. unfold on_rejected.
    destruct (status_is_401 error && negb (_retry (config error))).
    + rewrite Hstored, truthy_nonempty by done. simpl. split; [done|].
      rewrite times_sent_Send. fold rq. by rewrite decide_True.
    + split; [done | lia].
  - simpl. destruct (awaiting l !! ticket) as [orig|]; simpl.
    + split.
      * unfold getItem, setItem in *. by rewrite lookup_insert_ne.
      * rewrite times_sent_Send, times_sent_other by done.
        rewrite decide_False by apply intercepted_is_not_refresh. lia.
    + split; [done | lia].
Qed.

Lemma run_refreshes (schedule : list Event) (l : Loop) :
  getItem (storage (world l)) "refresh_token" = Some tok ->
  forallb refresh_fulfilled schedule = true ->
  times_sent rq (trace (world (run env l schedule))) =
    (times_sent rq (trace (world l)) + unauthorized_count schedule)%nat.
Proof.
  revert l. induction schedule as [|ev schedule IH]; intros l Hstored Hok.
  - unfold unauthorized_count. simpl. lia.
  - simpl in Hok. apply andb_true_iff in Hok as [Hev Hok].
    destruct (step_refreshes l ev Hstored Hev) as [Hstored' Hcount].
    unfold run in *. simpl fold_left. rewrite IH by done. rewrite Hcount.
    unfold unauthorized_count. simpl. destruct (starts_refresh ev); simpl; lia.
Qed.

(** An event that starts no handler sends no refresh request, whatever the
    token store holds. *)
Lemma step_quiet (l : Loop) (ev : Event) :
  starts_refresh ev = false ->
  times_sent rq (trace (world (step env l ev))) = times_sent rq (trace (world l)).
Proof.
  intros Hquiet. destruct ev as [error|ticket [response|e]]; simpl in *.
  - unfold on_rejected. by rewrite Hquiet.
  - destruct (awaiting l !! ticket) as [orig|]; simpl; [|done].
    rewrite times_sent_Send, times_sent_other by done.
    rewrite decide_False by apply intercepted_is_not_refresh. lia.
  - destruct (awaiting l !! ticket) as [orig|]; simpl; [|done].
    by rewrite !times_sent_other.
Qed.

Lemma run_quiet (schedule : list Event) (l : Loop) :
  unauthorized_count schedule = 0%nat ->
  times_sent rq (trace (world (run env l schedule))) = times_sent rq (trace (world l)).
Proof.
  revert l. induction schedule as [|ev schedule IH]; intros l Hnone; [done|].
  unfold unauthorized_count in Hnone. simpl in Hnone.
  destruct (starts_refresh ev) eqn:Hev; [done|].
  unfold run in *. simpl fold_left. rewrite IH by done. by apply step_quiet.
Qed.

End Interleaving.

(** A failing request never writes to the token store by itself. *)
Lemma run_failed_keeps_storage (env : option string) (post : list Event) (l : Loop) :
  forallb is_failed post = true ->
  storage (world (run env l post)) = storage (world l).
Proof.
  revert l. induction post as [|ev post IH]; intros l Hpost; [done|].
  simpl in Hpost. apply andb_true_iff in Hpost as [Hev Hpost].
  unfold run in *. simpl fold_left. rewrite IH by done.
  destruct ev as [error|]; [|done]. simpl.
  by destruct (on_rejected env _ error).
Qed.

Lemma run_app (env : option string) (l : Loop) (s1 s2 : list Event) :
  run env l (s1 ++ s2) = run env (run env l s1) s2.
Proof. unfold run. apply fold_left_app. Qed.

(** C9: with any number of requests in flight, each 401 on a request not
    yet retried sends a refresh request of its own, whether or not other
    handlers are already awaiting theirs: the 401s of [early] arrive in any
    order, interleaved with refresh exchanges that succeed, and once they
    have all arrived ([late] starts no handler) the exchanges still awaited
    settle in any order and with any outcome; the refresh requests sent
    (each a POST to [<NEXT_PUBLIC_API_BASE_URL>/auth/refresh/] with the
    body [{ refresh: <the stored refresh token> }]) are as many as the
    401s.  And the access token left in the token store is the one of the
    refresh exchange that settled last. *)
Theorem concurrent_401s_refresh_independently (env : option string) (l : Loop) :
  (forall (tok : string) (early late : list Event),
      let rq := mkConfig (js_String env +:+ "/auth/refresh/") POST None None None ∅
                         (RefreshBody tok) false in
      getItem (storage (world l)) "refresh_token" = Some tok ->
      tok <> "" ->
      forallb refresh_fulfilled early = true ->
      unauthorized_count late = 0%nat ->
      times_sent rq (trace (world (run env l (early ++ late)))) =
      (times_sent rq (trace (world l)) + unauthorized_count early)%nat) /\
  (forall (pre : list Event) (ticket : nat) (response : Response)
          (post : list Event),
      is_Some (awaiting (run env l pre) !! ticket) ->
      forallb is_failed post = true ->
      getItem
        (storage (world (run env l
           (pre ++ RefreshSettled ticket (Fulfilled response) :: post))))
        "access_token" = Some (access (rdata response))).
Proof.
  split.
  - intros tok early late rq Hstored Hne Hok Hlate.
    change rq with (refresh_request env tok).
    rewrite run_app, run_quiet by done. by apply run_refreshes.
  - intros pre ticket response post [orig Hawait] Hpost.
    rewrite run_app.
    change (run env (run env l pre) (RefreshSettled ticket (Fulfilled response) :: post))
      with (run env (step env (run env l pre) (RefreshSettled ticket (Fulfilled response)))
                post).
    rewrite run_failed_keeps_storage by done.
    simpl. rewrite Hawait. simpl.
    unfold getItem, setItem. apply lookup_insert_eq.
Qed.

(** ** The theorems at work *)

Section Instances.

Import Scenario.

(** An expired access token: 401, refresh, retry, 200. *)
Lemma retry_once_with_refreshed_token_witness :
  (_retry get_patients = false /\
   getItem (storage (browser session)) "refresh_token" = Some "r1" /\
   "r1" <> "") /\
  times_sent (mkConfig "http://localhost:8000/api/v1/auth/refresh/" POST
                       None None None ∅ (RefreshBody "r1") false)
             (trace (api env expired_once (browser session) get_patients).1) = 1%nat /\
  (api env expired_once (browser session) get_patients).2 =
    Some (Fulfilled (mkResponse 200 (body "" ""))).
Proof.
  split; [repeat split; discriminate|].
  destruct (retry_once_with_refreshed_token
              env expired_once (browser session) get_patients (body "" "") "r1"
              eq_refl eq_refl ltac:(discriminate) eq_refl) as (Hone & _ & Hretry).
  split; [exact Hone|].
  destruct (Hretry (mkResponse 200 (body "new" "")) eq_refl) as (_ & _ & _ & Hout).
  exact Hout.
Defined.

(** The refresh token is refused: the session is gone, the application is
    on the login page. *)
Lemma failed_refresh_tears_down_witness :
  (_retry get_patients = false /\
   getItem (storage (browser session)) "refresh_token" = Some "r1" /\
   "r1" <> "") /\
  session_empty (storage (api env refresh_refused (browser session) get_patients).1) /\
  href (api env refresh_refused (browser session) get_patients).1 = "/login".
Proof.
  split; [repeat split; discriminate|].
  destruct (failed_refresh_tears_down
              env refresh_refused (browser session) get_patients (body "" "") "r1"
              (mkError (refresh_request env "r1") (Some (mkResponse 401 (body "" ""))))
              eq_refl eq_refl ltac:(discriminate) eq_refl eq_refl)
    as (Hempty & _ & Hhref & _).
  split; [exact Hempty | exact Hhref].
Defined.

(** No refresh token: the access token stays where it was. *)
Lemma no_refresh_token_rejects_only_witness :
  (_retry get_patients = false /\
   truthy (getItem (storage (browser no_refresh)) "refresh_token") = false) /\
  storage (api env always_401 (browser no_refresh) get_patients).1 = no_refresh /\
  href (api env always_401 (browser no_refresh) get_patients).1 = "/".
Proof.
  split; [by split|].
  destruct (no_refresh_token_rejects_only
              env always_401 (browser no_refresh) get_patients (body "" "")
              eq_refl eq_refl eq_refl) as (Hstore & Hhref & _).
  split; [exact Hstore | exact Hhref].
Defined.

(** The claim as worded fails there: the access token and the user are
    still stored, and the location has not moved. *)
Lemma teardown_without_refresh_token_fails :
  ~ teardown_without_refresh_token env always_401 (browser no_refresh) get_patients.
Proof.
  unfold teardown_without_refresh_token. intros H.
  specialize (H eq_refl (ex_intro _ (body "" "") eq_refl) eq_refl).
  destruct (api env always_401 (browser no_refresh) get_patients) as [w' r] eqn:Hapi.
  destruct H as [[Haccess _] _].
  apply (f_equal (fun p => getItem (storage p.1) "access_token")) in Hapi.
  simpl in Hapi. rewrite Haccess in Hapi.
  vm_compute in Hapi. discriminate.
Qed.

Lemma refresh_replaces_access_token_only_witness :
  (_retry get_patients = false /\
   getItem (storage (browser session)) "refresh_token" = Some "r1" /\
   "r1" <> "") /\
  getItem (storage (api env expired_once (browser session) get_patients).1)
          "access_token" = Some "new" /\
  getItem (storage (api env expired_once (browser session) get_patients).1)
          "refresh_token" = Some "r1" /\
  getItem (storage (api env expired_once (browser session) get_patients).1)
          "user" = Some "{testdoctor}".
Proof.
  split; [repeat split; discriminate|].
  destruct (refresh_replaces_access_token_only
              env expired_once (browser session) get_patients (body "" "") "r1"
              (mkResponse 200 (body "new" ""))
              eq_refl eq_refl ltac:(discriminate) eq_refl eq_refl)
    as (Ha & Hr & Hu & _).
  split; [exact Ha|]. split; [exact Hr | exact Hu].
Defined.

(** A 500 is handed to the caller as it is. *)
Lemma other_failures_pass_through_witness :
  status_is_401 server_error = false /\
  response_interceptor_rejected env always_500 (api_n env always_500 1)
                                (browser session) server_error
  = (browser session, Some (Rejected server_error)).
Proof.
  split; [reflexivity|].
  apply (other_failures_pass_through env always_500). left. reflexivity.
Defined.

(** Two 401s at once, the second refresh refused after the first has
    settled: two refresh requests all the same.  And when both succeed, the
    token of the exchange that settled last stays. *)
Lemma concurrent_401s_refresh_independently_witness :
  (getItem (storage (world (idle session))) "refresh_token" = Some "r1" /\
   "r1" <> "" /\
   forallb refresh_fulfilled both_fail = true /\
   unauthorized_count one_refused = 0%nat) /\
  times_sent (mkConfig "http://localhost:8000/api/v1/auth/refresh/" POST
                       None None None ∅ (RefreshBody "r1") false)
             (trace (world (run env (idle session) (both_fail ++ one_refused))))
  = 2%nat /\
  getItem (storage (world (run env (idle session) two_at_once))) "access_token"
  = Some "first".
Proof.
  split; [repeat split; discriminate|].
  destruct (concurrent_401s_refresh_independently env (idle session))
    as [Hcount Hlast].
  split.
  - exact (Hcount "r1" both_fail one_refused
                  eq_refl ltac:(discriminate) eq_refl eq_refl).
  - apply (Hlast [ Failed (err "/patients/"); Failed (err "/diseases/");
                   RefreshSettled 1 (refreshed "second") ]
                 0%nat (mkResponse 200 (body "first" "")) []);
      [vm_compute; eauto | reflexivity].
Defined.

(** The two exchanges race: had they settled in the other order, the other
    token would have stayed. *)
Lemma concurrent_refreshes_race :
  getItem (storage (world (run env (idle session)
     [ Failed (err "/patients/"); Failed (err "/diseases/");
       RefreshSettled 0 (refreshed "first"); RefreshSettled 1 (refreshed "second") ])))
     "access_token" = Some "second".
Proof. vm_compute. reflexivity. Qed.

(** Wrong credentials with nothing stored: the store stays empty and nobody
    is signed in. *)
Lemma login_writes_session_on_success_only_witness :
  (truthy (getItem (storage (browser ∅)) "refresh_token") = false) /\
  storage (login env always_401 stringify (browser ∅) signed_out "testdoctor" "wrong").1.1
  = ∅ /\
  (login env always_401 stringify (browser ∅) signed_out "testdoctor" "wrong").1.2
  = signed_out.
Proof.
  split; [reflexivity|].
  pose proof (login_writes_session_on_success_only
                env always_401 stringify (browser ∅) signed_out "testdoctor" "wrong")
    as H.
  cbv zeta in H.
  destruct (login env always_401 stringify (browser ∅) signed_out "testdoctor" "wrong")
    as [[w' st'] [[[]|error]|]]; [| |destruct H].
  - destruct H as (wa & response & Hapi & _). vm_compute in Hapi. discriminate.
  - destruct H as (Hst & _ & Hsame). destruct (Hsame (or_intror eq_refl)) as [Hs _].
    split; [exact Hs | exact Hst].
Defined.

(** The claim as worded fails when a session is stored and the password is
    wrong: the login is rejected, yet [access_token] has been rewritten. *)
Lemma login_atomic_fails :
  ~ login_atomic env wrong_password stringify (browser session) signed_out
      "testdoctor" "wrong".
Proof.
  unfold login_atomic. intros H. specialize (H eq_refl).
  vm_compute in H. destruct H as [H _].
  discriminate.
Qed.

End Instances.

(** ** What a call can do to the browser *)

Section Calls.

Variable env : option string.
Variable net : Network.

(** The ways a call ends: after one request; after a refused refresh, with
    the session removed; after a refresh and one retry. *)
Lemma api_cases (w : World) (c : Config) :
  let c1 := request_interceptor (storage w) (mergeConfig env c) in
  (exists r, api env net w c = (emit (Send c1) w, Some r)) \/
  (exists tok e,
      api env net w c =
        (navigate "/login"
           (ls_removeItem "user"
              (ls_removeItem "refresh_token"
                 (ls_removeItem "access_token"
                    (emit (Send (refresh_request env tok)) (emit (Send c1) w))))),
         Some (Rejected e))) \/
  (exists tok a c2 r,
      api env net w c =
        (emit (Send c2)
           (ls_setItem "access_token" a
              (emit (Send (refresh_request env tok)) (emit (Send c1) w))),
         Some r)).
Proof.
  intros c1. unfold api. rewrite api_n_S. cbv zeta. fold c1.
  destruct (settle c1 _) as [resp|e]; [left; by eexists|].
  unfold response_interceptor_rejected, on_rejected.
  destruct (status_is_401 e && negb (_retry (config e))); [|left; by eexists].
  destruct (truthy (getItem _ "refresh_token")); [|left; by eexists].
  unfold transport.
  destruct (settle (refresh_request env _) _) as [resp|e']; simpl on_refresh_settled.
  - right; right. cbv iota beta. rewrite api_n_retried by done. cbv zeta.
    by eexists _, _, _, _.
  - right; left. by eexists _, _.
Qed.

End Calls.

(** X1: a call of the instance puts at least one and at most three requests
    on the network, whatever the server answers: its own, and after a 401
    at most one refresh and one retry. *)
Theorem api_sends_one_to_three
        (env : option string) (net : Network) (w : World) (c : Config) :
  exists rest,
    trace (api env net w c).1 = trace w ++ rest /\
    (1 <= length (sent rest) <= 3)%nat.
Proof.
  destruct (api_cases env net w c) as [[r ->] | [(tok & e & ->) | (tok & a & c2 & r & ->)]];
    simpl; eexists; (split; [by rewrite <- ?app_assoc | simpl; lia]).
Qed.

(** X2: a call leaves the token store and the location in one of three
    states: both as they were; the store with [access_token] replaced and
    the location as it was; or the store without the three session keys and
    the location at ["/login"].  In particular a call never writes
    [refresh_token] or [user], and never navigates while a session key is
    left. *)
Theorem api_store_outcomes
        (env : option string) (net : Network) (w : World) (c : Config) :
  let w' := (api env net w c).1 in
  (storage w' = storage w /\ href w' = href w) \/
  (exists a, storage w' = <["access_token" := a]> (storage w) /\ href w' = href w) \/
  (storage w' =
     delete "user" (delete "refresh_token" (delete "access_token" (storage w))) /\
   session_empty (storage w') /\ href w' = "/login").
Proof.
  destruct (api_cases env net w c) as [[r ->] | [(tok & e & ->) | (tok & a & c2 & r & ->)]];
    simpl.
  - by left.
  - right; right. repeat split; apply session_empty_after_removals.
  - right; left. by exists a.
Qed.

(** X3: unless the request is answered 401 and is not yet marked as
    retried, it is sent once and the call settles as that request settles:
    a 2xx fulfils it, any other status and a missing response (network
    failure, timeout) reject it at once, and the token store, the location
    and the rest of the network are left alone. *)
Theorem single_attempt_unless_fresh_401
        (env : option string) (net : Network) (w : World) (c : Config) :
  let c1 := request_interceptor (storage w) (mergeConfig env c) in
  (forall d, net (sent (trace w)) c1 <> Http 401 d) \/ _retry c = true ->
  api env net w c = (emit (Send c1) w, Some (settle c1 (net (sent (trace w)) c1))).
Proof.
  intros c1 H.
  destruct (settle c1 (net (sent (trace w)) c1)) as [resp|e] eqn:Hs.
  - unfold api. rewrite api_n_S. cbv zeta. fold c1. by rewrite Hs.
  - apply api_single_attempt; [done|].
    destruct H as [H|H]; [left | by right].
    destruct (status_is_401 e) eqn:H401; [|done].
    destruct (settle_rejected_401 _ _ _ Hs H401) as [d Hd]. by destruct (H d).
Qed.

(** X4: when the retry after a successful refresh is answered 401 again,
    the call is rejected with the error of the retry; the session is not
    removed (the new access token and the refresh token stay stored), the
    location does not change and no second refresh is made. *)
Theorem second_401_keeps_session
        (env : option string) (net : Network) (w : World) (c : Config)
        (d d' : ResponseData) (tok : string) (refreshed : Response) :
  let c1 := request_interceptor (storage w) (mergeConfig env c) in
  let rq := refresh_request env tok in
  let a := access (rdata refreshed) in
  let c2 := set_header "Authorization" ("Bearer " +:+ a) (set_retry true c1) in
  let w' := (api env net w c).1 in
  _retry c = false ->
  getItem (storage w) "refresh_token" = Some tok ->
  tok <> "" ->
  net (sent (trace w)) c1 = Http 401 d ->
  settle rq (net (sent (trace w) ++ [c1]) rq) = Fulfilled refreshed ->
  net (sent (trace w) ++ [c1; rq]) c2 = Http 401 d' ->
  (api env net w c).2 = Some (Rejected (mkError c2 (Some (mkResponse 401 d')))) /\
  getItem (storage w') "access_token" = Some a /\
  getItem (storage w') "refresh_token" = Some tok /\
  href w' = href w /\
  times_sent rq (trace w') = S (times_sent rq (trace w)).
Proof.
  intros c1 rq a c2 w' Hfresh Hstored Hne H401 Hs H401'. unfold w'.
  assert (c1 <> rq) as Hc1 by apply intercepted_is_not_refresh.
  rewrite (api_401_refreshed env net w c d Hfresh H401 tok Hstored Hne refreshed Hs).
  simpl. fold c1 rq a c2. rewrite H401'.
  unfold getItem, setItem in *. repeat split.
  - apply lookup_insert_eq.
  - by rewrite lookup_insert_ne.
  - rewrite !times_sent_Send, times_sent_other by done. rewrite !times_sent_Send.
    rewrite (decide_False (P := c1 = rq)) by done.
    rewrite (decide_True (P := rq = rq)) by done.
    rewrite decide_False by apply marked_is_not_refresh. lia.
Qed.

(** X5: the refresh request goes to the base URL of the instance exactly
    when [NEXT_PUBLIC_API_BASE_URL] is set and not empty.  When it is not,
    the instance falls back to ["http://localhost:8000/api/v1"] while the
    refresh request goes to ["undefined/auth/refresh/"] (variable not set)
    or ["/auth/refresh/"] (variable empty). *)
Theorem refresh_url_follows_env (env : option string) (tok : string) :
  if truthy env
  then url (refresh_request env tok) = api_baseURL env +:+ "/auth/refresh/"
  else api_baseURL env = "http://localhost:8000/api/v1" /\
       url (refresh_request env tok) <> api_baseURL env +:+ "/auth/refresh/" /\
       url (refresh_request env tok) =
         match env with
         | None => "undefined/auth/refresh/"
         | Some _ => "/auth/refresh/"
         end.
Proof.
  unfold api_baseURL. destruct (truthy env) eqn:Henv; [done|].
  destruct env as [s|]; simpl in *.
  - destruct (String.eqb_spec s ""); [subst|done]. by repeat split.
  - by repeat split.
Qed.

(** X6: after a login that the server accepts with a non-empty access
    token, the request of every call of the domain clients carries
    ["Bearer " + that token]. *)
Theorem login_then_bearer
        (env : option string) (net : Network) (stringify : User -> string)
        (w wa : World) (st : AuthState) (username password : string)
        (d : ResponseData) (call : Call) :
  auth_login env net w username password = (wa, Some (Fulfilled d)) ->
  access d <> "" ->
  let w' := (login env net stringify w st username password).1.1 in
  headers (request_interceptor (storage w') (mergeConfig env (call_config call)))
    !! "Authorization" = Some ("Bearer " +:+ access d).
Proof.
  intros Hlogin Hne w'. unfold w', login. rewrite Hlogin. simpl.
  unfold request_interceptor, getItem, setItem.
  rewrite lookup_insert_ne, lookup_insert_ne, lookup_insert_eq by done.
  simpl. destruct (String.eqb_spec (access d) ""); [done|]. simpl.
  apply lookup_insert_eq.
Qed.

(** ** Reloading the page *)

(** X7: a login that the server accepts survives a reload: when the access
    token is not empty and [JSON.parse] gives back the user that
    [JSON.stringify] wrote, the mount effect of a new provider finds the
    session that [login] stored, sets that user and ends loading, and
    leaves the token store as it is. *)
Theorem reload_after_login_restores_user
        (env : option string) (net : Network)
        (stringify : User -> string) (parse : string -> option (option User))
        (w wa : World) (st : AuthState) (username password : string)
        (d : ResponseData) :
  auth_login env net w username password = (wa, Some (Fulfilled d)) ->
  access d <> "" ->
  stringify (user d) <> "" ->
  parse (stringify (user d)) = Some (Some (user d)) ->
  let w' := (login env net stringify w st username password).1.1 in
  let reloaded := on_mount parse w' initial_auth in
  user_state reloaded.2 = Some (user d) /\
  isAuthenticated reloaded.2 = true /\
  loading reloaded.2 = false /\
  storage reloaded.1 = storage w'.
Proof.
  intros Hlogin Ha Hs Hparse w' reloaded.
  unfold reloaded, w', login. rewrite Hlogin. cbn [fst snd].
  unfold on_mount, ls_setItem, emit. cbn [storage href trace].
  unfold getItem, setItem.
  rewrite lookup_insert_eq.
  rewrite lookup_insert_ne, lookup_insert_ne, lookup_insert_eq by done.
  rewrite !truthy_nonempty by done. cbn [andb js_String]. by rewrite Hparse.
Qed.

(** X8: a stored user that does not parse, next to an access token, makes
    the mount effect remove the three session keys; nobody is signed in,
    loading ends, and the location is not changed. *)
Theorem corrupt_user_clears_session
        (parse : string -> option (option User)) (w : World) (st : AuthState)
        (token userData : string) :
  getItem (storage w) "access_token" = Some token -> token <> "" ->
  getItem (storage w) "user" = Some userData -> userData <> "" ->
  parse userData = None ->
  let mounted := on_mount parse w st in
  session_empty (storage mounted.1) /\
  user_state mounted.2 = user_state st /\
  loading mounted.2 = false /\
  href mounted.1 = href w.
Proof.
  intros Ht Hte Hu Hue Hparse mounted. unfold mounted, on_mount.
  rewrite Ht, Hu, !truthy_nonempty by done. simpl. rewrite Hparse. simpl.
  repeat split; apply session_empty_after_removals.
Qed.

(** X9: after the mount effect of a new provider the user counts as
    authenticated exactly when a non-empty access token and a non-empty
    user were stored and the user parsed to a value other than [null];
    loading has ended either way. *)
Theorem authenticated_after_mount
        (parse : string -> option (option User)) (w : World) :
  let mounted := on_mount parse w initial_auth in
  loading mounted.2 = false /\
  (isAuthenticated mounted.2 = true <->
   exists token userData u,
     getItem (storage w) "access_token" = Some token /\ token <> "" /\
     getItem (storage w) "user" = Some userData /\ userData <> "" /\
     parse userData = Some (Some u)).
Proof.
  intros mounted. unfold mounted, on_mount.
  destruct (truthy (getItem (storage w) "access_token")) eqn:Ht; simpl.
  - destruct (truthy (getItem (storage w) "user")) eqn:Hu; simpl.
    + apply truthy_Some in Ht as (token & Ht & Hte).
      apply truthy_Some in Hu as (userData & Hu & Hue).
      rewrite Hu. simpl.
      destruct (parse userData) as [[u|]|] eqn:Hp; simpl; (split; [done|]).
      * split; [|done]. intros _. by exists token, userData, u.
      * split; [done|]. intros (t' & d' & u' & _ & _ & Hu' & _ & Hp'). congruence.
      * split; [done|]. intros (t' & d' & u' & _ & _ & Hu' & _ & Hp'). congruence.
    + split; [done|]. split; [done|].
      intros (t' & d' & u' & _ & _ & Hu' & Hue' & _).
      rewrite Hu' in Hu. simpl in Hu.
      by destruct (String.eqb_spec d' "").
  - split; [done|]. split; [done|].
    intros (t' & d' & u' & Ht' & Hte' & _).
    rewrite Ht' in Ht. simpl in Ht.
    by destruct (String.eqb_spec t' "").
Qed.

(** X10: after [logout], reloading signs nobody in: the mount effect finds
    no session, writes nothing, and leaves the user null. *)
Theorem reload_after_logout
        (parse : string -> option (option User)) (w : World) (st : AuthState) :
  let w' := (logout w st).1 in
  on_mount parse w' initial_auth = (w', mkAuthState None false).
Proof.
  intros w'. unfold w', on_mount, logout, auth_logout. simpl.
  unfold getItem, removeItem.
  rewrite lookup_delete_ne, lookup_delete_ne, lookup_delete_eq by done.
  done.
Qed.

(** ** The upload component *)

Section Upload.

Import ImageUpload.

Variable toISOString : Z -> string.
Variable callback_throws : Diagnosis -> bool.

Lemma size_check (file : File) :
  (size file >? 10 * 1024 * 1024)%Z = negb (size file <=? 10485760)%Z.
Proof.
  change (10 * 1024 * 1024)%Z with 10485760%Z.
  rewrite Z.gtb_ltb, Z.leb_antisym. by rewrite negb_involutive.
Qed.

(** [analyzeImage] on the state: the file and its preview are not touched;
    with a file, analysing ends and the error is set when the callback
    throws. *)
Lemma analyze_state (st : UploadState) (now : Z) :
  analyze toISOString callback_throws st now =
    match uploadedFile st with
    | None => st
    | Some file =>
        mkUploadState (uploadedFile st) (previewUrl st) false
          (if callback_throws (mockResult toISOString file now)
           then Some "Analysis failed. Please try again."
           else uploadError st)
    end.
Proof.
  unfold analyze, analyzeImage. destruct st as [[file|] preview busy err]; [|done].
  simpl. by destruct (callback_throws _).
Qed.

(** The two halves make up the whole: an analysis whose timer fires before
    anything else happens does what [analyzeImage] does in one piece. *)
Lemma timer_splits (t : list UiEffect) :
  until_timer t ++ after_timer t = t.
Proof.
  induction t as [|e t IH]; [done|]. destruct e; simpl; by rewrite ?IH.
Qed.

Lemma analysis_in_one_piece (st : UploadState) (file : File) (now : Z) :
  uploadedFile st = Some file ->
  isAnalyzing st = false ->
  ui (act toISOString callback_throws
          (act toISOString callback_throws (mkDesk st None) (Analyze now)).1
          TimerFires).1
  = analyze toISOString callback_throws st now.
Proof.
  intros Hf Hb. unfold act at 2. simpl ui. rewrite Hf, Hb. simpl fst.
  unfold act. simpl awaited. cbv iota beta zeta. simpl fst. simpl ui.
  unfold analyze. rewrite Hf. simpl. rewrite Hf.
  by destruct (callback_throws _).
Qed.

Lemma act_settled (d : Desk) (urls : list string) (a : Action) :
  settled d urls ->
  nonempty_url a = true ->
  settled (act toISOString callback_throws d a).1
          (fold_left live_step (act toISOString callback_throws d a).2 urls).
Proof.
  intros [Hbusy Hst] Hurl. destruct d as [st waiting]. simpl in *.
  destruct a as [files url'| |fires|]; unfold act; simpl.
  - (* a drop *)
    destruct Hst as [(Hf & Hp & ->) | (file & url & Hf & Hp & Hne & -> & Hok)];
      rewrite Hf; simpl; [|split; [done|]; right; by exists file, url].
    destruct files as [|file files]; simpl; [split; [done|]; by left|].
    unfold acceptable. rewrite size_check.
    destruct (String.prefix "image/" (type file)) eqn:Hty; simpl;
      [|split; [done|]; by left].
    destruct (size file <=? 10485760)%Z eqn:Hsz; simpl;
      [|split; [done|]; by left].
    split; [done|]. right. exists file, url'. repeat split; try done.
    + simpl in Hurl. by destruct (String.eqb_spec url' "").
    + unfold acceptable. by rewrite Hty, Hsz.
  - (* a removal *)
    destruct Hst as [(Hf & Hp & ->) | (file & url & Hf & Hp & Hne & -> & Hok)];
      rewrite Hf; simpl; [split; [done|]; by left|].
    unfold removeFile. rewrite Hp, truthy_nonempty by done. simpl.
    rewrite String.eqb_refl. simpl. split; [done|]. by left.
  - (* an analysis starts *)
    destruct Hst as [(Hf & Hp & ->) | (file & url & Hf & Hp & Hne & -> & Hok)];
      rewrite Hf; simpl; [split; [done|]; by left|].
    destruct (isAnalyzing st) eqn:Hb; simpl.
    + split; [simpl; by rewrite Hb|]. right. by exists file, url.
    + split; [simpl; split; by eauto|]. right. exists file, url. simpl.
      by rewrite Hp.
  - (* its timer fires *)
    destruct waiting as [[file fires]|]; simpl; [|by split].
    split.
    + destruct (callback_throws _); simpl; split; try done; by intros [? ?].
    + destruct Hst as [(Hf & Hp & ->) | (file' & url & Hf & Hp & Hne & -> & Hok)].
      * left. by destruct (callback_throws _).
      * right. exists file', url. by destruct (callback_throws _).
Qed.

Lemma interact_settled (actions : list Action) (d : Desk) (urls : list string) :
  settled d urls ->
  forallb nonempty_url actions = true ->
  settled (interact toISOString callback_throws d actions).1
          (fold_left live_step (interact toISOString callback_throws d actions).2 urls).
Proof.
  revert d urls. induction actions as [|a actions IH]; intros d urls Hd Hurls; [done|].
  simpl in Hurls. apply andb_true_iff in Hurls as [Hurl Hurls].
  pose proof (act_settled d urls a Hd Hurl) as Hstep.
  simpl. destruct (act toISOString callback_throws d a) as [d1 effects].
  specialize (IH d1 _ Hstep Hurls).
  destruct (interact toISOString callback_throws d1 actions) as [d2 later].
  simpl in *. by rewrite fold_left_app.
Qed.

Lemma onDrop_accepted (st : UploadState) (file : File) (others : list File)
      (url : string) :
  acceptable file = true ->
  onDrop st (file :: others) url =
    (mkUploadState (Some file) (Some url) (isAnalyzing st) None,
     [CreateObjectURL file url]).
Proof.
  unfold acceptable, onDrop. rewrite size_check.
  intros [-> ->]%andb_true_iff. done.
Qed.

End Upload.

(** X11: [onDrop] looks at the first dropped file only and accepts it
    exactly when its type starts with ["image/"] and its size is at most
    10485760 bytes (10 MB itself is accepted): an accepted file becomes the
    uploaded file, gets a preview URL and clears the error; a refused one
    sets an error and leaves the uploaded file and the preview as they
    were, creating no URL. *)
Theorem onDrop_accepts_iff_acceptable
        (st : ImageUpload.UploadState) (file : ImageUpload.File)
        (others : list ImageUpload.File) (url : string) :
  let dropped := ImageUpload.onDrop st (file :: others) url in
  if ImageUpload.acceptable file
  then dropped =
         (ImageUpload.mkUploadState (Some file) (Some url)
                                    (ImageUpload.isAnalyzing st) None,
          [ImageUpload.CreateObjectURL file url])
  else ImageUpload.uploadedFile dropped.1 = ImageUpload.uploadedFile st /\
       ImageUpload.previewUrl dropped.1 = ImageUpload.previewUrl st /\
       ImageUpload.isAnalyzing dropped.1 = ImageUpload.isAnalyzing st /\
       is_Some (ImageUpload.uploadError dropped.1) /\
       dropped.2 = [].
Proof.
  unfold ImageUpload.acceptable, ImageUpload.onDrop. rewrite size_check.
  destruct (String.prefix "image/" (ImageUpload.type file)); simpl; [|by eauto].
  destruct (ImageUpload.size file <=? 10485760)%Z; simpl; by eauto.
Qed.

(** X12: dropping an acceptable file and removing it again gives back the
    component as it was before the drop, and the URL that was created is
    revoked: no object URL is left. *)
Theorem drop_then_remove
        (file : ImageUpload.File) (others : list ImageUpload.File) (url : string) :
  ImageUpload.acceptable file = true ->
  url <> "" ->
  let dropped := ImageUpload.onDrop ImageUpload.initial (file :: others) url in
  let removed := ImageUpload.removeFile dropped.1 in
  removed.1 = ImageUpload.initial /\
  dropped.2 ++ removed.2 =
    [ImageUpload.CreateObjectURL file url; ImageUpload.RevokeObjectURL url] /\
  ImageUpload.live (dropped.2 ++ removed.2) = [].
Proof.
  intros Hok Hne dropped removed.
  unfold removed, dropped. rewrite onDrop_accepted by done. simpl.
  unfold ImageUpload.removeFile. simpl.
  destruct (String.eqb_spec url ""); [done|]. simpl.
  repeat split. unfold ImageUpload.live. simpl. by rewrite String.eqb_refl.
Qed.

(** X13: whatever happens to the component, in any order (files dropped,
    the file removed, an analysis started, its timer firing), removals and
    drops during an awaited analysis included, as long as the browser hands
    out non-empty object URLs: [isAnalyzing] is true exactly while an
    analysis is awaited, a file is uploaded exactly when a preview URL is
    held, the uploaded file is an image of at most 10 MB, and the object
    URLs created and not revoked are the held preview URL and nothing
    else. *)
Theorem upload_invariants
        (toISOString : Z -> string)
        (callback_throws : ImageUpload.Diagnosis -> bool)
        (actions : list ImageUpload.Action) :
  forallb ImageUpload.nonempty_url actions = true ->
  let done := ImageUpload.interact toISOString callback_throws
                (ImageUpload.mkDesk ImageUpload.initial None) actions in
  (ImageUpload.isAnalyzing (ImageUpload.ui done.1) = true <->
   is_Some (ImageUpload.awaited done.1)) /\
  (is_Some (ImageUpload.uploadedFile (ImageUpload.ui done.1)) <->
   is_Some (ImageUpload.previewUrl (ImageUpload.ui done.1))) /\
  (forall file,
      ImageUpload.uploadedFile (ImageUpload.ui done.1) = Some file ->
      String.prefix "image/" (ImageUpload.type file) = true /\
      (ImageUpload.size file <= 10485760)%Z) /\
  ImageUpload.live done.2 =
    match ImageUpload.previewUrl (ImageUpload.ui done.1) with
    | Some url => [url]
    | None => []
    end.
Proof.
  intros Hurls done.
  destruct (interact_settled toISOString callback_throws actions
              (ImageUpload.mkDesk ImageUpload.initial None) [])
    as [Hbusy Hst].
  { split; [|by left]. simpl. split; [done | by intros [? ?]]. }
  { done. }
  fold done in Hbusy, Hst. unfold ImageUpload.live.
  destruct Hst as [(Hf & Hp & ->) | (file & url & Hf & Hp & _ & -> & Hok)];
    rewrite Hf, Hp.
  - split; [done|]. split; [done|]. split; [by intros file [=] | done].
  - split; [done|]. split; [split; by eauto|]. split; [|done].
    intros file' [= <-]. unfold ImageUpload.acceptable in Hok.
    apply andb_true_iff in Hok as [Hty Hsz]. split; [done | by apply Z.leb_le].
Qed.

(** X14: [analyzeImage] without an uploaded file does nothing.  With one,
    it ends with [isAnalyzing] false whether or not the callback throws
    (the [finally] block), sets the error ["Analysis failed. Please try
    again."] exactly when the callback throws, and leaves the file and its
    preview alone. *)
Theorem analyze_always_ends
        (toISOString : Z -> string)
        (callback_throws : ImageUpload.Diagnosis -> bool)
        (st : ImageUpload.UploadState) (now : Z) :
  let st' := ImageUpload.analyze toISOString callback_throws st now in
  ImageUpload.uploadedFile st' = ImageUpload.uploadedFile st /\
  ImageUpload.previewUrl st' = ImageUpload.previewUrl st /\
  match ImageUpload.uploadedFile st with
  | None => st' = st
  | Some file =>
      ImageUpload.isAnalyzing st' = false /\
      ImageUpload.uploadError st' =
        if callback_throws (ImageUpload.mockResult toISOString file now)
        then Some "Analysis failed. Please try again."
        else ImageUpload.uploadError st
  end.
Proof.
  intros st'. unfold st'. rewrite analyze_state.
  destruct st as [[file|] preview busy err]; simpl; [|done].
  by destruct (callback_throws _).
Qed.

(** ** The page *)

Lemma home_run_result (actions : list Home.Action) (st : Home.State) :
  Home.analysisResult (Home.run st actions) =
  Home.last_completed actions (Home.analysisResult st).
Proof.
  revert st. induction actions as [|a actions IH]; intros st; [done|].
  unfold Home.run in *. simpl. rewrite IH. by destruct a.
Qed.

Lemma home_run_app (st : Home.State) (a1 a2 : list Home.Action) :
  Home.run st (a1 ++ a2) = Home.run (Home.run st a1) a2.
Proof. unfold Home.run. apply fold_left_app. Qed.

(** X15: the page keeps the result of the analysis that completed last
    through any navigation: whenever the user goes to ["results"], the page
    shows the report of that analysis, and the placeholder if none has
    completed; and an analysis that completes brings up its own report
    whatever view was shown. *)
Theorem results_view_shows_last_analysis
        (st : Home.State) (actions : list Home.Action)
        (r : ImageUpload.Diagnosis) :
  Home.renderCurrentView (Home.run st (actions ++ [Home.Navigate "results"])) =
    Home.RenderedResults
      (Home.Results (Home.last_completed actions (Home.analysisResult st))) /\
  Home.renderCurrentView (Home.run st (actions ++ [Home.Complete r])) =
    Home.RenderedResults (Home.Report r).
Proof.
  rewrite !home_run_app. split.
  - unfold Home.run at 1. simpl. unfold Home.renderCurrentView. simpl.
    by rewrite home_run_result.
  - done.
Qed.

(** ** More on requests in flight *)

(** X16: a refresh that succeeds after another handler has removed the
    session writes its access token all the same: the token store is left
    with [access_token] but without [refresh_token] and [user], and the
    location is ["/login"]. *)
Theorem late_refresh_after_teardown
        (env : option string) (l : Loop) (t1 t2 : nat) (o1 o2 : Config)
        (refreshError : AxiosError) (response : Response) :
  t1 <> t2 ->
  awaiting l !! t1 = Some o1 ->
  awaiting l !! t2 = Some o2 ->
  let l' := run env l [ RefreshSettled t1 (Rejected refreshError);
                        RefreshSettled t2 (Fulfilled response) ] in
  getItem (storage (world l')) "access_token" = Some (access (rdata response)) /\
  getItem (storage (world l')) "refresh_token" = None /\
  getItem (storage (world l')) "user" = None /\
  href (world l') = "/login".
Proof.
  intros Hne H1 H2 l'. unfold l', run. simpl.
  rewrite H1. simpl. rewrite lookup_delete_ne, H2 by done. simpl.
  unfold getItem, setItem, removeItem. repeat split; by simplify_map_eq.
Qed.

Section Stranded.

Variable env : option string.

Lemma step_without_refresh_token (l : Loop) (ev : Event) (tok : string) :
  truthy (getItem (storage (world l)) "refresh_token") = false ->
  truthy (getItem (storage (world (step env l ev))) "refresh_token") = false /\
  tickets (step env l ev) = tickets l /\
  times_sent (refresh_request env tok) (trace (world (step env l ev))) =
  times_sent (refresh_request env tok) (trace (world l)).
Proof.
  intros Hno. destruct ev as [error|ticket [response|e]]; simpl.
  - unfold on_rejected. rewrite Hno.
    by destruct (status_is_401 error && negb (_retry (config error))).
  - destruct (awaiting l !! ticket) as [orig|]; simpl; [|done].
    repeat split.
    + unfold getItem, setItem in *. by rewrite lookup_insert_ne.
    + rewrite times_sent_Send, times_sent_other by done.
      rewrite decide_False by apply intercepted_is_not_refresh. lia.
  - destruct (awaiting l !! ticket) as [orig|]; simpl; [|done].
    repeat split.
    + unfold getItem, removeItem. by simplify_map_eq.
    + by rewrite !times_sent_other.
Qed.

Lemma run_without_refresh_token (schedule : list Event) (l : Loop) (tok : string) :
  truthy (getItem (storage (world l)) "refresh_token") = false ->
  truthy (getItem (storage (world (run env l schedule))) "refresh_token") = false /\
  tickets (run env l schedule) = tickets l /\
  times_sent (refresh_request env tok) (trace (world (run env l schedule))) =
  times_sent (refresh_request env tok) (trace (world l)).
Proof.
  revert l. induction schedule as [|ev schedule IH]; intros l Hno; [done|].
  destruct (step_without_refresh_token l ev tok Hno) as (Hno' & Ht & Hs).
  destruct (IH _ Hno') as (Hno'' & Ht' & Hs').
  unfold run in *. simpl. repeat split; [done | congruence | congruence].
Qed.

End Stranded.

(** X17: once no refresh token is stored, nothing that happens to the
    requests in flight starts a refresh exchange: whatever fails and
    whatever refresh still settles, no handler is suspended, no refresh
    request is sent, and the token store stays without a refresh token. *)
Theorem no_refresh_token_no_exchange
        (env : option string) (l : Loop) (schedule : list Event) (tok : string) :
  truthy (getItem (storage (world l)) "refresh_token") = false ->
  truthy (getItem (storage (world (run env l schedule))) "refresh_token") = false /\
  tickets (run env l schedule) = tickets l /\
  times_sent (refresh_request env tok) (trace (world (run env l schedule))) =
  times_sent (refresh_request env tok) (trace (world l)).
Proof. apply run_without_refresh_token. Qed.

(** ** These properties at work *)

Section MoreInstances.

Import Scenario.

(** The server cannot be reached: one request, rejected without a
    response. *)
Lemma single_attempt_unless_fresh_401_witness :
  (forall d,
      unreachable (sent (trace (browser session)))
        (request_interceptor session (mergeConfig env get_patients)) <> Http 401 d) /\
  api env unreachable (browser session) get_patients =
    (emit (Send (request_interceptor session (mergeConfig env get_patients)))
          (browser session),
     Some (Rejected
             (mkError (request_interceptor session (mergeConfig env get_patients))
                      None))).
Proof.
  split; [done|].
  apply (single_attempt_unless_fresh_401 env unreachable (browser session) get_patients).
  left. done.
Defined.

(** Refreshed, and refused again: the new token stays. *)
Lemma second_401_keeps_session_witness :
  (_retry get_patients = false /\
   getItem (storage (browser session)) "refresh_token" = Some "r1" /\
   "r1" <> "") /\
  getItem (storage (api env still_unauthorized (browser session) get_patients).1)
          "access_token" = Some "new" /\
  getItem (storage (api env still_unauthorized (browser session) get_patients).1)
          "refresh_token" = Some "r1" /\
  href (api env still_unauthorized (browser session) get_patients).1 = "/".
Proof.
  split; [repeat split; discriminate|].
  destruct (second_401_keeps_session
              env still_unauthorized (browser session) get_patients
              (body "" "") (body "" "") "r1" (mkResponse 200 (body "new" ""))
              eq_refl eq_refl ltac:(discriminate) eq_refl eq_refl eq_refl)
    as (_ & Ha & Hr & Hh & _).
  split; [exact Ha|]. split; [exact Hr | exact Hh].
Defined.

Lemma login_then_bearer_witness :
  (auth_login env accepts (browser ∅) "testdoctor" "testpass123"
   = (after_login, Some (Fulfilled (body "a1" "r1"))) /\
   access (body "a1" "r1") <> "") /\
  headers
    (request_interceptor
       (storage (login env accepts stringify (browser ∅) signed_out
                       "testdoctor" "testpass123").1.1)
       (mergeConfig env (call_config AuthGetProfile)))
    !! "Authorization" = Some "Bearer a1".
Proof.
  split; [split; [reflexivity | discriminate]|].
  exact (login_then_bearer env accepts stringify (browser ∅) after_login signed_out
           "testdoctor" "testpass123" (body "a1" "r1") AuthGetProfile
           eq_refl ltac:(discriminate)).
Defined.

Lemma reload_after_login_restores_user_witness :
  (auth_login env accepts (browser ∅) "testdoctor" "testpass123"
   = (after_login, Some (Fulfilled (body "a1" "r1"))) /\
   stringify doctor <> "" /\
   parse (stringify doctor) = Some (Some doctor)) /\
  user_state
    (on_mount parse
       (login env accepts stringify (browser ∅) signed_out
              "testdoctor" "testpass123").1.1
       initial_auth).2 = Some doctor.
Proof.
  split; [repeat split; discriminate|].
  destruct (reload_after_login_restores_user
              env accepts stringify parse (browser ∅) after_login signed_out
              "testdoctor" "testpass123" (body "a1" "r1")
              eq_refl ltac:(discriminate) ltac:(discriminate) eq_refl)
    as (Hu & _).
  exact Hu.
Defined.

Lemma corrupt_user_clears_session_witness :
  (getItem (storage (browser corrupt)) "access_token" = Some "old" /\
   getItem (storage (browser corrupt)) "user" = Some "{testdoc" /\
   parse "{testdoc" = None) /\
  session_empty (storage (on_mount parse (browser corrupt) initial_auth).1) /\
  user_state (on_mount parse (browser corrupt) initial_auth).2 = None.
Proof.
  split; [by repeat split|].
  destruct (corrupt_user_clears_session parse (browser corrupt) initial_auth
              "old" "{testdoc"
              eq_refl ltac:(discriminate) eq_refl ltac:(discriminate) eq_refl)
    as (Hempty & Hu & _).
  split; [exact Hempty | exact Hu].
Defined.

(** Ten megabytes exactly pass the check. *)
Lemma drop_then_remove_witness :
  (ImageUpload.acceptable at_limit = true /\ "blob:1" <> "") /\
  (ImageUpload.removeFile
     (ImageUpload.onDrop ImageUpload.initial [at_limit] "blob:1").1).1
  = ImageUpload.initial.
Proof.
  split; [split; [reflexivity | discriminate]|].
  destruct (drop_then_remove at_limit [] "blob:1" eq_refl ltac:(discriminate))
    as (Hback & _).
  exact Hback.
Defined.

(** The file is swapped while the analysis is awaited: when the timer has
    fired nothing is awaited, and the one live URL is that of the second
    file. *)
Lemma upload_invariants_witness :
  forallb ImageUpload.nonempty_url session_at_the_desk = true /\
  ImageUpload.live
    (ImageUpload.interact iso (fun _ => false) empty_desk session_at_the_desk).2
  = ["blob:2"] /\
  ImageUpload.isAnalyzing
    (ImageUpload.ui
       (ImageUpload.interact iso (fun _ => false) empty_desk
          [ ImageUpload.Drop [file1] "blob:1"; ImageUpload.Analyze 0;
            ImageUpload.Remove ]).1) = true.
Proof.
  split; [reflexivity|].
  destruct (upload_invariants iso (fun _ => false) session_at_the_desk eq_refl)
    as (_ & _ & _ & Hlive).
  split; [exact Hlive|].
  destruct (upload_invariants iso (fun _ => false)
              [ ImageUpload.Drop [file1] "blob:1"; ImageUpload.Analyze 0;
                ImageUpload.Remove ] eq_refl)
    as (Hbusy & _).
  apply Hbusy. vm_compute. eauto.
Defined.

Lemma late_refresh_after_teardown_witness :
  (0%nat <> 1%nat /\
   awaiting two_awaiting !! 0%nat = Some (held "/patients/") /\
   awaiting two_awaiting !! 1%nat = Some (held "/diseases/")) /\
  getItem
    (storage (world (run env two_awaiting
       [ RefreshSettled 0 (Rejected refusal); RefreshSettled 1 (refreshed "late") ])))
    "access_token" = Some "late" /\
  getItem
    (storage (world (run env two_awaiting
       [ RefreshSettled 0 (Rejected refusal); RefreshSettled 1 (refreshed "late") ])))
    "refresh_token" = None.
Proof.
  split; [repeat split; discriminate|].
  destruct (late_refresh_after_teardown
              env two_awaiting 0 1 (held "/patients/") (held "/diseases/")
              refusal (mkResponse 200 (body "late" ""))
              ltac:(discriminate) eq_refl eq_refl)
    as (Ha & Hr & _).
  split; [exact Ha | exact Hr].
Defined.

Lemma no_refresh_token_no_exchange_witness :
  truthy (getItem (storage (world (idle no_refresh))) "refresh_token") = false /\
  times_sent (refresh_request env "r1")
             (trace (world (run env (idle no_refresh) two_at_once))) = 0%nat.
Proof.
  split; [reflexivity|].
  destruct (no_refresh_token_no_exchange env (idle no_refresh) two_at_once "r1" eq_refl)
    as (_ & _ & Hnone).
  exact Hnone.
Defined.

End MoreInstances.

(** ** The authorization header of every request *)

Section EveryRequest.

Variable env : option string.
Variable net : Network.

Lemma intercepted_has_defaults (ls : gmap string string) (c : Config) :
  is_Some (baseURL (request_interceptor ls (mergeConfig env c))).
Proof.
  unfold request_interceptor. destruct (truthy _); simpl; by destruct (baseURL c).
Qed.

Lemma effects_of_call_app (w : World) (c : Config) (rest : list Effect) :
  trace (api env net w c).1 = trace w ++ rest ->
  effects_of_call env net w c = rest.
Proof. unfold effects_of_call. intros ->. by rewrite drop_app_length. Qed.

(** The requests of the instance in a call: the intercepted request and,
    after a successful refresh, the retry, which is marked and was sent
    under the refreshed token. *)
Lemma instance_sends_of_call (w : World) (c : Config) :
  let c1 := request_interceptor (storage w) (mergeConfig env c) in
  instance_sends (storage w) (effects_of_call env net w c) = [(storage w, c1)] \/
  exists a,
    let c2 := request_interceptor (<["access_token" := a]> (storage w))
                (mergeConfig env
                   (set_header "Authorization" ("Bearer " +:+ a) (set_retry true c1))) in
    instance_sends (storage w) (effects_of_call env net w c) =
      [(storage w, c1); (<["access_token" := a]> (storage w), c2)].
Proof.
  intros c1.
  destruct (intercepted_has_defaults (storage w) c) as [b Hb]. fold c1 in Hb.
  destruct (settle c1 (net (sent (trace w)) c1)) as [resp|e] eqn:Hs.
  - left. rewrite (effects_of_call_app w c [Send c1]).
    + simpl. by rewrite Hb.
    + unfold api. rewrite api_n_S. cbv zeta. fold c1. by rewrite Hs.
  - destruct (on_rejected env (storage (emit (Send c1) w)) e) as [r|rq orig] eqn:Hon.
    + left. rewrite (effects_of_call_app w c [Send c1]).
      * simpl. by rewrite Hb.
      * unfold api. rewrite api_n_S. cbv zeta. fold c1. rewrite Hs.
        unfold response_interceptor_rejected. by rewrite Hon.
    + assert (rq = refresh_request env (js_String (getItem (storage w) "refresh_token"))
              /\ orig = set_retry true c1) as [-> ->].
      { unfold on_rejected in Hon. rewrite (settle_config_of_error _ _ _ Hs) in Hon.
        destruct (status_is_401 e && negb (_retry c1)); [|done].
        simpl in Hon. destruct (truthy _); [|done]. by injection Hon as <- <-. }
      set (rq := refresh_request env _) in *.
      destruct (settle rq (net (sent (trace (emit (Send c1) w))) rq))
        as [refreshed|e'] eqn:Hr.
      * right. exists (access (rdata refreshed)).
        cbv zeta.
        erewrite (effects_of_call_app w c).
        2:{ unfold api. rewrite api_n_S. cbv zeta. fold c1. rewrite Hs.
            unfold response_interceptor_rejected. rewrite Hon.
            unfold transport. rewrite Hr. simpl on_refresh_settled. cbv iota beta.
            rewrite api_n_retried by done. cbv zeta. simpl.
            rewrite <- !app_assoc. simpl. reflexivity. }
        simpl. rewrite Hb. simpl.
        destruct (intercepted_has_defaults
                    (setItem "access_token" (access (rdata refreshed)) (storage w))
                    (set_header "Authorization"
                       ("Bearer " +:+ access (rdata refreshed)) (set_retry true c1)))
          as [b' Hb'].
        by rewrite Hb'.
      * left. erewrite (effects_of_call_app w c).
        2:{ unfold api. rewrite api_n_S. cbv zeta. fold c1. rewrite Hs.
            unfold response_interceptor_rejected. rewrite Hon.
            unfold transport. rewrite Hr. simpl.
            rewrite <- !app_assoc. simpl. reflexivity. }
        simpl. by rewrite Hb.
Qed.

End EveryRequest.

(** C4, as the code has it: every request that a call of a domain client
    puts on the network through the instance, the retry after a refresh
    included, carries ["Bearer " + the stored access token] when a non-empty
    access token is stored as it is sent, and no authorization header when
    no access token is stored.  With the empty string stored, the first
    request carries no authorization header and the retry carries
    ["Bearer "].  There is a first request in every call, and at most the
    retry after it; the request interceptor itself leaves a request as it
    is when no non-empty token is stored. *)
Theorem every_request_carries_stored_token
        (env : option string) (net : Network) (w : World) (call : Call) :
  let c1 := request_interceptor (storage w) (mergeConfig env (call_config call)) in
  let requests :=
    instance_sends (storage w) (effects_of_call env net w (call_config call)) in
  Forall (fun sent_under => bearer_as_sent sent_under.1 sent_under.2) requests /\
  (exists more, requests = (storage w, c1) :: more /\ (length more <= 1)%nat) /\
  (forall c, truthy (getItem (storage w) "access_token") = false ->
             request_interceptor (storage w) c = c).
Proof.
  intros c1 requests.
  assert (bearer_as_sent (storage w) c1) as Hfirst.
  { unfold bearer_as_sent, c1, request_interceptor.
    destruct (getItem (storage w) "access_token") as [token|]; simpl.
    - destruct (String.eqb token ""); simpl; [by destruct call|].
      apply lookup_insert_eq.
    - by destruct call. }
  split; [|split].
  - unfold requests.
    destruct (instance_sends_of_call env net w (call_config call)) as [-> | [a ->]].
    + by repeat constructor.
    + repeat constructor; [done|]. simpl.
      unfold bearer_as_sent, request_interceptor, getItem.
      rewrite !lookup_insert_eq. simpl.
      destruct (String.eqb a "") eqn:Ha; simpl.
      * apply String.eqb_eq in Ha as ->. rewrite lookup_insert_eq. by destruct call.
      * rewrite lookup_insert_eq. by destruct call.
  - unfold requests.
    destruct (instance_sends_of_call env net w (call_config call)) as [-> | [a ->]];
      eexists; (split; [reflexivity | simpl; lia]).
  - intros c Hno. unfold request_interceptor. by rewrite Hno.
Qed.

Section EveryRequestInstances.

Import Scenario.

(** The wording fails under both readings of "present", at the same stored
    value: when the refresh answers an empty access token, the retry is sent
    with ["Bearer "] while the empty string is stored, and the first request
    of the next call is sent without a header while the empty string is
    still stored. *)
Lemma every_request_bearer_iff_token_fails :
  ~ every_request_bearer_iff_token nonempty_token env empty_refresh
      (browser session) get_patients /\
  ~ every_request_bearer_iff_token token_key env accepts
      after_empty_refresh get_patients.
Proof.
  split; unfold every_request_bearer_iff_token; intros H.
  - assert (instance_sends (storage (browser session))
              (effects_of_call env empty_refresh (browser session) get_patients)
            = [ (session, request_interceptor session (mergeConfig env get_patients));
                (<["access_token" := ""]> session,
                 set_header "Authorization" "Bearer "
                   (set_retry true
                      (request_interceptor session (mergeConfig env get_patients)))) ])
      as Hsends by (vm_compute; reflexivity).
    rewrite Hsends in H. apply Forall_cons in H as [_ H].
    apply Forall_cons in H as [H _].
    unfold bearer_iff_token in H. vm_compute in H. discriminate.
  - assert (instance_sends (storage after_empty_refresh)
              (effects_of_call env accepts after_empty_refresh get_patients)
            = [ (storage after_empty_refresh,
                 request_interceptor (storage after_empty_refresh)
                                     (mergeConfig env get_patients)) ])
      as Hsends by (vm_compute; reflexivity).
    rewrite Hsends in H. apply Forall_cons in H as [H _].
    unfold bearer_iff_token in H. vm_compute in H. discriminate.
Qed.

(** The same exchange under the theorem: the first request went out under
    the old token, the retry under the empty one. *)
Lemma every_request_carries_stored_token_witness :
  truthy (getItem (storage after_empty_refresh) "access_token") = false /\
  Forall (fun sent_under => bearer_as_sent sent_under.1 sent_under.2)
         (instance_sends (storage (browser session))
            (effects_of_call env empty_refresh (browser session)
                             (call_config (PatientsList None)))) /\
  request_interceptor (storage after_empty_refresh) get_patients = get_patients.
Proof.
  split; [reflexivity|].
  destruct (every_request_carries_stored_token
              env empty_refresh (browser session) (PatientsList None))
    as (Hall & _ & _).
  split; [exact Hall|].
  destruct (every_request_carries_stored_token
              env empty_refresh after_empty_refresh (PatientsList None))
    as (_ & _ & Hkeeps).
  apply Hkeeps. reflexivity.
Defined.

End EveryRequestInstances.
